(** * MassGen v2 agent backend (massgen/v2/agent_backend.py)

    A shallow embedding of the token accounting, the OpenAI Response API
    streaming loop, the cost table and the backend factory of
    [massgen/v2/agent_backend.py].

    Conventions of the embedding:
    - a Python [str] is a list of Unicode code points ([pystr]); ASCII
      literals are written [py "..."];
    - a Python [int] is a [Z] (unbounded, as in Python);
    - a Python [float] amount of money is an exact rational [Q]
      (binary rounding is not modelled);
    - an exception is its message [str(e)]. *)

From Stdlib Require Import List String Ascii ZArith NArith QArith Lia Bool.
Import ListNotations.
Open Scope Z_scope.

(** ** Python strings *)

Definition pychar := N.
Definition pystr := list pychar.

(** An ASCII literal as a Python string. *)
Definition py (s : string) : pystr :=
  map (fun c => N.of_nat (nat_of_ascii c)) (list_ascii_of_string s).

Fixpoint pystr_eqb (a b : pystr) : bool :=
  match a, b with
  | [], [] => true
  | x :: a', y :: b' => N.eqb x y && pystr_eqb a' b'
  | _, _ => false
  end.

(** ** TokenUsage (lines 16-39) *)

Record TokenUsage := mkTokenUsage {
  input_tokens : Z;
  output_tokens : Z;
  estimated_cost : Q;
  model : option pystr;
  provider : option pystr;
  timestamp : option Q
}.

(** [TokenUsage()] with its [__post_init__]: the timestamp is [time.time()],
    passed in as [now]. *)
Definition TokenUsage_new (now : Q) : TokenUsage :=
  {| input_tokens := 0; output_tokens := 0; estimated_cost := 0%Q;
     model := None; provider := None; timestamp := Some now |}.

(** [add_usage(self, input_tokens, output_tokens, cost)]: the three
    in-place additions. *)
Definition add_usage (t : TokenUsage) (i o : Z) (cost : Q) : TokenUsage :=
  {| input_tokens := t.(input_tokens) + i;
     output_tokens := t.(output_tokens) + o;
     estimated_cost := (t.(estimated_cost) + cost)%Q;
     model := t.(model); provider := t.(provider);
     timestamp := t.(timestamp) |}.

(** [get_total_tokens(self)] *)
Definition get_total_tokens (t : TokenUsage) : Z :=
  t.(input_tokens) + t.(output_tokens).

(** A sequence of [add_usage(i, o, cost)] calls, replayed in order. *)
Definition usage_call := (Z * Z * Q)%type.

Definition replay (t : TokenUsage) (calls : list usage_call) : TokenUsage :=
  fold_left (fun acc c => match c with (i, o, q) => add_usage acc i o q end)
    calls t.

Definition sum_inputs (calls : list usage_call) : Z :=
  fold_right (fun c s => match c with (i, _, _) => i + s end) 0 calls.
Definition sum_outputs (calls : list usage_call) : Z :=
  fold_right (fun c s => match c with (_, o, _) => o + s end) 0 calls.
Definition sum_costs (calls : list usage_call) : Q :=
  fold_right (fun c s => match c with (_, _, q) => q + s end)%Q 0%Q calls.

(** ** ChatCompletionsBackend.estimate_tokens (lines 162-174)

    Only [len(text)] is used, so the text is a list of characters of any
    kind. *)
Definition estimate_tokens {A : Type} (text : list A) : Z :=
  Z.of_nat (List.length text) / 4.

(** ** Exceptions

    The exceptions the module raises or lets through; [str(e)] is
    [str_of_exn e]. [ProviderError] is anything the OpenAI client raises
    (network error, rejected request, malformed response), with its text. *)
Inductive exn :=
| ValueError (msg : pystr)
| ImportError (msg : pystr)
| KeyError (key : pystr)
| ProviderError (msg : pystr).

Definition str_of_exn (e : exn) : pystr :=
  match e with
  | ValueError m | ImportError m | ProviderError m => m
  | KeyError k => py "'" ++ k ++ py "'"
  end.

(** ** String methods used by the module *)

Fixpoint is_prefix (p s : pystr) : bool :=
  match p, s with
  | [], _ => true
  | x :: p', y :: s' => N.eqb x y && is_prefix p' s'
  | _ :: _, [] => false
  end.

(** [s.endswith(p)] *)
Definition endswith (s p : pystr) : bool := is_prefix (rev p) (rev s).

(** [s.replace(old, "")] for a non-empty [old]: every non-overlapping
    occurrence, scanned from the left, is removed. [fuel] bounds the scan
    by the length of [s]. *)
Fixpoint remove_all_fuel (fuel : nat) (old s : pystr) : pystr :=
  match fuel with
  | O => s
  | Datatypes.S fuel' =>
      match s with
      | [] => []
      | c :: s' =>
          if is_prefix old s
          then remove_all_fuel fuel' old (skipn (List.length old) s)
          else c :: remove_all_fuel fuel' old s'
      end
  end.

Definition replace_by_empty (s old : pystr) : pystr :=
  match old with
  | [] => s
  | _ => remove_all_fuel (List.length s) old s
  end.

(** ** OpenAIResponseBackend.calculate_cost (lines 344-395) *)

(** Per-1K-token rates ([input], [output]) of the [pricing] dict. *)
Definition pricing : list (pystr * (Q * Q)) :=
  [ (py "gpt-4o",        (25 # 10000, 1 # 100));
    (py "gpt-4o-mini",   (15 # 100000, 6 # 10000));
    (py "gpt-4",         (3 # 100, 6 # 100));
    (py "gpt-3.5-turbo", (1 # 1000, 2 # 1000));
    (py "o1",            (15 # 1000, 6 # 100));
    (py "o1-mini",       (3 # 1000, 12 # 1000));
    (py "o3-mini",       (3 # 1000, 12 # 1000)) ].

Fixpoint lookup_rates (m : pystr) (tbl : list (pystr * (Q * Q)))
  : option (Q * Q) :=
  match tbl with
  | [] => None
  | (k, r) :: tbl' => if pystr_eqb k m then Some r else lookup_rates m tbl'
  end.

(** The base model: the first of the suffixes [-low], [-medium], [-high]
    that ends [model] is replaced (everywhere) by the empty string. *)
Definition base_model_of (m : pystr) : pystr :=
  let fix go (suffixes : list pystr) :=
    match suffixes with
    | [] => m
    | sfx :: rest => if endswith m sfx then replace_by_empty m sfx else go rest
    end
  in go [py "-low"; py "-medium"; py "-high"].

(** The value of an environment variable read by [float(os.getenv(..., d))]:
    unset (the default [d] is used), a text [float] accepts with a finite
    value (that value), or a text [float] rejects. Texts [float] reads as
    an infinity or a NaN (["inf"], ["nan"], ["1e400"]) are not
    represented. *)
Inductive env_rate :=
| EnvUnset
| EnvFloat (q : Q)
| EnvNotAFloat (text : pystr).

Record Env := mkEnv {
  FALLBACK_INPUT_RATE : env_rate;
  FALLBACK_OUTPUT_RATE : env_rate;
  OPENAI_API_KEY : option pystr
}.

Definition read_rate (v : env_rate) (default : Q) : exn + Q :=
  match v with
  | EnvUnset => inr default
  | EnvFloat q => inr q
  | EnvNotAFloat t =>
      inl (ValueError (py "could not convert string to float: '" ++ t ++ py "'"))
  end.

Definition tokens_cost (input_tokens output_tokens : Z) (r : Q * Q) : Q :=
  ((inject_Z input_tokens / 1000) * fst r
   + (inject_Z output_tokens / 1000) * snd r)%Q.

(** [calculate_cost], in exact arithmetic; the [warnings.warn] of the
    fallback branch has no effect on the result and is not modelled, and
    neither is the [OverflowError] of [tokens / 1000] for a count above
    about [1.8 * 10^311] in absolute value. *)
Definition calculate_cost (env : Env) (input_tokens output_tokens : Z)
  (m : pystr) : exn + Q :=
  match lookup_rates (base_model_of m) pricing with
  | Some rates => inr (tokens_cost input_tokens output_tokens rates)
  | None =>
      match read_rate env.(FALLBACK_INPUT_RATE) (25 # 10000) with
      | inl e => inl e
      | inr ri =>
          match read_rate env.(FALLBACK_OUTPUT_RATE) (1 # 100) with
          | inl e => inl e
          | inr ro => inr (tokens_cost input_tokens output_tokens (ri, ro))
          end
      end
  end.

(** ** OpenAIResponseBackend construction (lines 180-202) and the factory
    [create_backend] (lines 399-414) *)

(** The keyword arguments the backend reads from [self.config]
    ([None]: key absent). *)
Record Config := mkConfig {
  cfg_model : option pystr;
  cfg_api_key : option pystr
}.

Record OpenAIResponseBackend := mkBackend {
  config : Config;
  backend_model : pystr;          (* self.model *)
  token_usage : TokenUsage        (* self.token_usage *)
}.

(** Python truthiness of an optional string. *)
Definition truthy (v : option pystr) : option pystr :=
  match v with
  | Some (_ :: _) => v
  | _ => None
  end.

(** [OpenAIResponseBackend( **kwargs)]; [openai_installed] says whether
    [from openai import AsyncOpenAI] succeeds, [now] is the [time.time()] of
    the fresh [TokenUsage]. *)
Definition OpenAIResponseBackend_new (cfg : Config) (env : Env)
  (openai_installed : bool) (now : Q) : exn + OpenAIResponseBackend :=
  let self_model := match cfg.(cfg_model) with
                    | Some m => m
                    | None => py "gpt-4o"
                    end in
  if negb openai_installed then
    inl (ImportError
           (py "OpenAI package not installed. Install with: pip install openai"))
  else
    match (match truthy cfg.(cfg_api_key) with
           | Some k => Some k
           | None => truthy env.(OPENAI_API_KEY)
           end) with
    | None => inl (ValueError (py "OpenAI API key not found"))
    | Some _ => inr {| config := cfg; backend_model := self_model;
                      token_usage := TokenUsage_new now |}
    end.

(** [str.lower()] on one code point: ASCII upper case letters, and the two
    non-ASCII code points whose lower case contains ASCII letters
    (U+0130 to "i" followed by U+0307, U+212A KELVIN SIGN to "k"). Python maps
    further non-ASCII letters to other non-ASCII code points; they are left
    as they are here, which changes no comparison with an ASCII text. *)
Definition lower_char (c : pychar) : pystr :=
  if (65 <=? c)%N && (c <=? 90)%N then [(c + 32)%N]
  else if (c =? 304)%N then [105%N; 775%N]
  else if (c =? 8490)%N then [107%N]
  else [c].

Definition lower (s : pystr) : pystr := flat_map lower_char s.

(** [create_backend(provider, model, **kwargs)]; the only keyword argument
    the backend reads besides [model] is [api_key]. *)
Definition create_backend (provider model_name : pystr) (api_key : option pystr)
  (env : Env) (openai_installed : bool) (now : Q)
  : exn + OpenAIResponseBackend :=
  if pystr_eqb (lower provider) (py "openai") then
    OpenAIResponseBackend_new
      {| cfg_model := Some model_name; cfg_api_key := api_key |}
      env openai_installed now
  else inl (ValueError (py "Unsupported provider: " ++ provider)).

(** ** OpenAIResponseBackend.stream_with_tools (lines 204-318) *)

(** A conversation message: the values of its ["role"] and ["content"]
    keys ([None]: key absent). *)
Record Message := mkMessage {
  role : option pystr;
  content_of : option pystr
}.

(** An event of the provider's stream, as the loop observes it: its [type]
    attribute, its [delta] attribute ([None]: absent or [None]), and its
    [usage] attribute with the [input_tokens] and [output_tokens] found on
    it ([None]: no [usage] attribute). *)
Record Event := mkEvent {
  ev_type : option pystr;
  ev_delta : option pystr;
  ev_usage : option (option Z * option Z)
}.

(** How iterating over the response ends after its events: it stops, or
    it raises. *)
Inductive stream_end :=
| Stops
| Raises (e : exn).

(** What [await self.client.responses.create( **params)] does: it raises,
    or it returns a response stream. *)
Inductive create_outcome :=
| CreateRaises (e : exn)
| CreateReturns (events : list Event) (fin : stream_end).

(** The [StreamChunk] fields the backend sets; unset fields are [None]. *)
Record StreamChunk := mkChunk {
  type : pystr;
  content : option pystr;
  error : option pystr;
  source : option pystr;
  status : option pystr
}.

Definition content_chunk (d : pystr) : StreamChunk :=
  {| type := py "content"; content := Some d; error := None;
     source := Some (py "openai"); status := None |}.
Definition tool_calls_chunk (d : option pystr) : StreamChunk :=
  {| type := py "tool_calls"; content := d; error := None;
     source := Some (py "openai"); status := None |}.
Definition done_chunk : StreamChunk :=
  {| type := py "done"; content := None; error := None;
     source := Some (py "openai"); status := Some (py "completed") |}.
Definition error_chunk (e : exn) : StreamChunk :=
  {| type := py "error"; content := None; error := Some (str_of_exn e);
     source := Some (py "openai"); status := None |}.

(** The extraction loop over [messages] (lines 230-234): the last system
    message's content becomes [instructions]; [message["content"]] raises
    [KeyError] on a system message without content. *)
Fixpoint split_messages (messages : list Message) (instructions : pystr)
  (input_messages : list Message) : exn + (pystr * list Message) :=
  match messages with
  | [] => inr (instructions, input_messages)
  | m :: rest =>
      match m.(role) with
      | Some r =>
          if pystr_eqb r (py "system") then
            match m.(content_of) with
            | Some c => split_messages rest c input_messages
            | None => inl (KeyError (py "content"))
            end
          else split_messages rest instructions (input_messages ++ [m])
      | None => split_messages rest instructions (input_messages ++ [m])
      end
  end.

(** The state the [async for] loop threads: the backend's accumulator and
    the locals [text_content], [input_tokens], [output_tokens]. *)
Record LoopState := mkLoopState {
  ls_usage : TokenUsage;
  ls_text : pystr;
  ls_input : Z;
  ls_output : Z
}.

Definition value_or_zero (v : option Z) : Z :=
  match v with Some n => n | None => 0 end.

(** One iteration of the loop body (lines 280-311): the chunks it yields and
    the new state, or the exception it raises. *)
Definition step (env : Env) (self_model : pystr) (st : LoopState) (ev : Event)
  : exn + (list StreamChunk * LoopState) :=
  match ev.(ev_type) with
  | None => inr ([], st)
  | Some ty =>
      if pystr_eqb ty (py "response.output_text.delta") then
        match ev.(ev_delta) with
        | Some ((_ :: _) as d) =>
            inr ([content_chunk d],
                 {| ls_usage := st.(ls_usage); ls_text := st.(ls_text) ++ d;
                    ls_input := st.(ls_input); ls_output := st.(ls_output) |})
        | _ => inr ([], st)
        end
      else if pystr_eqb ty (py "response.function_call_output.delta") then
        inr ([tool_calls_chunk ev.(ev_delta)], st)
      else if pystr_eqb ty (py "response.completed") then
        let '(i, o) := match ev.(ev_usage) with
                       | Some (mi, mo) => (value_or_zero mi, value_or_zero mo)
                       | None => (st.(ls_input), st.(ls_output))
                       end in
        match calculate_cost env i o self_model with
        | inl e => inl e
        | inr cost =>
            inr ([done_chunk],
                 {| ls_usage := add_usage st.(ls_usage) i o cost;
                    ls_text := st.(ls_text); ls_input := i; ls_output := o |})
        end
      else inr ([], st)
  end.

(** The [async for] loop (lines 279-311): the chunks it yields, the
    exception that escapes it (raised by the loop body or by the iteration
    over the response), and the loop state when it stops. *)
Fixpoint async_for (env : Env) (self_model : pystr) (evs : list Event)
  (fin : stream_end) (st : LoopState)
  : list StreamChunk * option exn * LoopState :=
  match evs with
  | [] =>
      match fin with
      | Stops => ([], None, st)
      | Raises e => ([], Some e, st)
      end
  | ev :: evs' =>
      match step env self_model st ev with
      | inl e => ([], Some e, st)
      | inr (out, st') =>
          let '(rest, exc, st'') := async_for env self_model evs' fin st' in
          (out ++ rest, exc, st'')
      end
  end.

(** The loop state at the start of the loop (lines 275-277). *)
Definition init_loop_state (self : OpenAIResponseBackend) : LoopState :=
  {| ls_usage := self.(token_usage); ls_text := [];
     ls_input := 0; ls_output := 0 |}.

(** The body of the [try] (lines 220-311): the chunks it yields, the
    exception that escapes it, and the backend's accumulator at the end.
    The request the method builds (model, instructions, input, tools,
    temperature, reasoning effort) only feeds the provider; the provider's
    answer [resp] is an input here, so every statement holds for every
    answer. *)
Definition try_body (env : Env) (self : OpenAIResponseBackend)
  (messages : list Message) (resp : create_outcome)
  : list StreamChunk * option exn * TokenUsage :=
  match split_messages messages [] [] with
  | inl e => ([], Some e, self.(token_usage))
  | inr _ =>
      match resp with
      | CreateRaises e => ([], Some e, self.(token_usage))
      | CreateReturns evs fin =>
          let '(out, exc, st) :=
            async_for env self.(backend_model) evs fin (init_loop_state self) in
          (out, exc, st.(ls_usage))
      end
  end.

(** [stream_with_tools(messages, tools)]: the [try] body followed by its
    [except Exception as e] clause (lines 313-318), which yields one [error]
    chunk. Returns every chunk yielded and the backend once the generator is
    exhausted. *)
Definition stream_with_tools (env : Env) (self : OpenAIResponseBackend)
  (messages : list Message) (resp : create_outcome)
  : list StreamChunk * OpenAIResponseBackend :=
  let '(out, exc, u) := try_body env self messages resp in
  (out ++ match exc with Some e => [error_chunk e] | None => [] end,
   {| config := self.(config); backend_model := self.(backend_model);
      token_usage := u |}).

(** ** Budget enforcement of the Single Agent and the Orchestrator

    The orchestrator, the single-agent wrapper and [TimeoutConfig] are
    imported by [massgen/tests/test_timeout.py] from modules of the
    repository that are not part of these sources. *)

(** Modelled from the spec: [TimeoutConfig] (section 3), the missing
    [massgen.agent_config] class. *)
Record TimeoutConfig := mkTimeoutConfig {
  agent_timeout_seconds : Z;
  agent_max_tokens : Z;
  orchestrator_timeout_seconds : Z;
  orchestrator_max_tokens : Z;
  enable_timeout_fallback : bool
}.

(** Modelled from the spec: the terminal status a [done] chunk carries
    (sections 4.2, 4.3 and 7 name completed, degraded and failed ones). *)
Inductive RunStatus := Completed | Degraded | Failed.

(** Modelled from the spec: the StreamChunk protocol as the missing
    orchestrator relays it (section 3). *)
Inductive Chunk :=
| CContent (text : pystr)
| CToolCalls
| CError (msg : pystr)
| CDone (s : RunStatus).

(** A chunk produced by a backend: its arrival time in milliseconds since
    the agent started, and the tokens it accounts for. *)
Record Timed := mkTimed {
  at_ms : Z;
  tokens : Z;
  chunk : Chunk
}.

(** What a backend does after its listed chunks: its stream ends at a
    time, or it never yields again. *)
Inductive BackendEnd := Finishes (t : Z) | Hangs.

Definition agent_timeout_msg : pystr := py "Agent time limit exceeded".
Definition orchestrator_timeout_msg : pystr :=
  py "Orchestrator time limit exceeded".

(** [s] occurs in [t] (Python's [s in t]). *)
Fixpoint contains (t s : pystr) : bool :=
  is_prefix s t || match t with [] => false | _ :: t' => contains t' s end.

(** The output of a wrapper: the chunks it relays or synthesizes, whether it failed hard
    (budget exceeded without fallback), and the time it ended. *)
Record AgentRun := mkAgentRun {
  ar_chunks : list Timed;
  ar_fatal : bool;
  ar_end : Z
}.

(** Modelled from the spec: the budget cut-off of sections 4.1 and 4.2 at
    time [t]: with fallback an [error] chunk noting the time limit and a
    degraded [done]; without, a hard failure. *)
Definition agent_cut (cfg : TimeoutConfig) (t : Z) : AgentRun :=
  if cfg.(enable_timeout_fallback)
  then {| ar_chunks := [mkTimed t 0 (CError agent_timeout_msg); mkTimed t 0 (CDone Degraded)];
          ar_fatal := false; ar_end := t |}
  else {| ar_chunks := []; ar_fatal := true; ar_end := t |}.

Definition cons_chunk (tc : Timed) (r : AgentRun) : AgentRun :=
  {| ar_chunks := tc :: r.(ar_chunks); ar_fatal := r.(ar_fatal);
     ar_end := r.(ar_end) |}.

(** Modelled from the spec: the Single Agent's [respond] (section 4.2).
    The backend's next chunk is awaited until the agent's deadline; a chunk
    or an end of stream later than it truncates the backend at the
    deadline. Each relayed chunk is followed by the token check. A backend
    [done] is relayed and ends the sequence, and so does a backend
    [error]. [used] counts the tokens consumed so far. *)
Fixpoint agent_respond (cfg : TimeoutConfig) (used : Z) (bs : list Timed)
  (fin : BackendEnd) : AgentRun :=
  let deadline := cfg.(agent_timeout_seconds) * 1000 in
  match bs with
  | [] =>
      match fin with
      | Finishes t =>
          if deadline <? t then agent_cut cfg deadline
          else {| ar_chunks := []; ar_fatal := false; ar_end := t |}
      | Hangs => agent_cut cfg deadline
      end
  | b :: rest =>
      if deadline <? b.(at_ms) then agent_cut cfg deadline
      else
        match b.(chunk) with
        | CDone s =>
            {| ar_chunks := [b]; ar_fatal := false;
               ar_end := b.(at_ms) |}
        | CError m =>
            {| ar_chunks := [b]; ar_fatal := false;
               ar_end := b.(at_ms) |}
        | _ =>
            let used' := used + b.(tokens) in
            cons_chunk b
              (if cfg.(agent_max_tokens) <? used'
               then agent_cut cfg b.(at_ms)
               else agent_respond cfg used' rest fin)
        end
  end.

(** Modelled from the spec: what the orchestrator receives from one agent
    task (section 4.3): a chunk with its tokens, the task's hard failure,
    or the task's end. *)
Inductive Item :=
| IChunk (c : Chunk) (tok : Z)
| IFatal
| IEnd.

Definition items_of (r : AgentRun) : list (Z * Item) :=
  map (fun b => (b.(at_ms), IChunk b.(chunk) b.(tokens))) r.(ar_chunks)
  ++ [(r.(ar_end), if r.(ar_fatal) then IFatal else IEnd)].

(** Modelled from the spec: first-ready-first-forwarded merge of two
    agents' items (section 4.3, step 3); on equal times the left one goes
    first. *)
Fixpoint merge2 (a : list (Z * Item)) : list (Z * Item) -> list (Z * Item) :=
  fix go b :=
    match a, b with
    | [], _ => b
    | _, [] => a
    | x :: a', y :: b' =>
        if fst y <? fst x then y :: go b' else x :: merge2 a' b
    end.

Definition merge_all (ls : list (list (Z * Item))) : list (Z * Item) :=
  fold_right merge2 [] ls.

(** The output of a run: the chunks emitted to the caller, and whether it
    ended in a propagated hard failure. *)
Record RunOutput := mkRunOutput {
  out_chunks : list Chunk;
  out_fatal : bool
}.

(** Modelled from the spec: global budget exceeded (section 4.3, step 5). *)
Definition orchestrator_cut (cfg : TimeoutConfig) : RunOutput :=
  if cfg.(enable_timeout_fallback)
  then {| out_chunks := [CError orchestrator_timeout_msg; CDone Degraded];
          out_fatal := false |}
  else {| out_chunks := []; out_fatal := true |}.

Definition emit (c : Chunk) (r : RunOutput) : RunOutput :=
  {| out_chunks := c :: r.(out_chunks); out_fatal := r.(out_fatal) |}.

Definition is_completed (s : RunStatus) : bool :=
  match s with Completed => true | _ => false end.

(** Modelled from the spec: the merge loop (section 4.3, steps 3-7). Every
    chunk except the agents' own [done] chunks is relayed; after each one
    the global tokens are updated and the global budget re-checked; an item
    later than the global deadline cancels the run. The run's single [done]
    is completed when some agent completed, degraded otherwise. *)
Fixpoint orchestrate_items (cfg : TimeoutConfig) (used : Z) (completed : bool)
  (items : list (Z * Item)) : RunOutput :=
  let deadline := cfg.(orchestrator_timeout_seconds) * 1000 in
  match items with
  | [] =>
      {| out_chunks := [CDone (if completed then Completed else Degraded)];
         out_fatal := false |}
  | (t, it) :: rest =>
      if deadline <? t then orchestrator_cut cfg
      else
        match it with
        | IFatal => {| out_chunks := []; out_fatal := true |}
        | IEnd => orchestrate_items cfg used completed rest
        | IChunk (CDone s) tok =>
            if cfg.(orchestrator_max_tokens) <? used + tok
            then orchestrator_cut cfg
            else orchestrate_items cfg (used + tok)
                   (completed || is_completed s) rest
        | IChunk c tok =>
            emit c
              (if cfg.(orchestrator_max_tokens) <? used + tok
               then orchestrator_cut cfg
               else orchestrate_items cfg (used + tok) completed rest)
        end
  end.

(** Modelled from the spec: a run over the agents' backends, each given by
    its timed chunks and how its stream ends (sections 4.2 and 4.3). *)
Definition orchestrate (cfg : TimeoutConfig)
  (backends : list (list Timed * BackendEnd)) : RunOutput :=
  orchestrate_items cfg 0 false
    (merge_all (map (fun '(bs, fin) => items_of (agent_respond cfg 0 bs fin))
                    backends)).

(** A backend that does not complete within [ms] milliseconds: no [done]
    or [error] chunk by then, and no end of stream by then. *)
Definition no_completion_chunk_by (ms : Z) (b : Timed) : Prop :=
  b.(at_ms) <= ms ->
  match b.(chunk) with CDone _ | CError _ => False | _ => True end.

Definition never_completes_within (ms : Z) (bs : list Timed)
  (fin : BackendEnd) : Prop :=
  Forall (no_completion_chunk_by ms) bs /\
  match fin with Finishes t => ms < t | Hangs => True end.

(** The configuration of [test_agent_timeout]. *)
Definition test_agent_timeout_config : TimeoutConfig :=
  {| agent_timeout_seconds := 10; agent_max_tokens := 1000;
     orchestrator_timeout_seconds := 600; orchestrator_max_tokens := 1000;
     enable_timeout_fallback := true |}.

(** ** Tool lists: [ChatCompletionsBackend.format_tools_for_api]
    (lines 142-160) and [OpenAIResponseBackend._format_tools_for_response_api]
    (lines 320-338) *)

(** A Python value as a tool list holds it. A [dict] is the list of its
    items in insertion order, with distinct keys. *)
Local Set Warnings "-register-all".
Inductive PyVal :=
| VNone
| VBool (b : bool)
| VInt (z : Z)
| VStr (s : pystr)
| VList (l : list PyVal)
| VDict (items : list (pystr * PyVal)).

(** [d.get(k)] *)
Fixpoint dict_get (d : list (pystr * PyVal)) (k : pystr) : option PyVal :=
  match d with
  | [] => None
  | (k', v) :: d' => if pystr_eqb k' k then Some v else dict_get d' k
  end.

(** [v == s] for the value [v] of [d.get(k)] and a string [s]. *)
Definition is_str (v : option PyVal) (s : pystr) : bool :=
  match v with
  | Some (VStr s') => pystr_eqb s' s
  | _ => false
  end.

(** [d == {k: v}] for a dict [d] with distinct keys: its only item is [k]
    with the string [v]. *)
Definition dict_is_single (d : list (pystr * PyVal)) (k v : pystr) : bool :=
  match d with
  | [(k', VStr v')] => pystr_eqb k' k && pystr_eqb v' v
  | _ => false
  end.

(** [ChatCompletionsBackend.format_tools_for_api(tools)] *)
Definition format_tools_for_api (tools : list PyVal) : list PyVal :=
  fold_left (fun formatted_tools tool =>
               match tool with
               | VDict _ => formatted_tools ++ [tool]
               | _ => formatted_tools ++ [tool]
               end) tools [].

Definition web_search_tool : PyVal :=
  VDict [(py "type", VStr (py "web_search_preview"))].
Definition code_interpreter_tool : PyVal :=
  VDict [(py "type", VStr (py "code_interpreter"))].
Definition code_interpreter_auto : PyVal :=
  VDict [(py "type", VStr (py "code_interpreter"));
         (py "container", VDict [(py "type", VStr (py "auto"))])].

(** [OpenAIResponseBackend._format_tools_for_response_api(tools)] *)
Definition format_tools_for_response_api (tools : list PyVal) : list PyVal :=
  fold_left (fun formatted_tools tool =>
               match tool with
               | VDict d =>
                   if is_str (dict_get d (py "type")) (py "function") then
                     formatted_tools ++ [tool]
                   else if dict_is_single d (py "type") (py "web_search_preview")
                   then formatted_tools ++ [web_search_tool]
                   else if dict_is_single d (py "type") (py "code_interpreter")
                   then formatted_tools ++ [code_interpreter_auto]
                   else formatted_tools ++ [tool]
               | _ => formatted_tools
               end) tools [].

(** ** The request [stream_with_tools] sends (lines 221-269) *)

(** [s.startswith(p)] *)
Definition startswith (s p : pystr) : bool := is_prefix p s.

(** The values of the [temperature] and [max_tokens] keys of [self.config]
    ([None]: absent or [None]); they are passed on unchanged. *)
Record SamplingConfig := mkSamplingConfig {
  cfg_temperature : option PyVal;
  cfg_max_tokens : option PyVal
}.

(** The [params] dict given to [responses.create]; an absent key is
    [None]. [p_reasoning] is the effort of [params["reasoning"]]. *)
Record Params := mkParams {
  p_model : pystr;
  p_stream : bool;
  p_instructions : option pystr;
  p_input : list Message;
  p_tools : option (list PyVal);
  p_temperature : option PyVal;
  p_max_output_tokens : option PyVal;
  p_reasoning : option pystr
}.

(** The model and reasoning effort of a model whose name starts with ["o"]
    (lines 257-269): the effort is ["low"] by default; the first of [-low],
    [-medium], [-high] that ends the name is removed from it (by
    [replace]) and gives the effort. [build_params] sends
    [reasoning = {"effort": effort}] for every such model. *)
Definition o_series_model (self_model : pystr) : pystr * pystr :=
  if endswith self_model (py "-low") then
    (replace_by_empty self_model (py "-low"), py "low")
  else if endswith self_model (py "-medium") then
    (replace_by_empty self_model (py "-medium"), py "medium")
  else if endswith self_model (py "-high") then
    (replace_by_empty self_model (py "-high"), py "high")
  else (self_model, py "low").

(** Lines 221-269 of [stream_with_tools(messages, tools)]: the [params] of
    the call, or the [KeyError] of a system message without content. *)
Definition build_params (self_model : pystr) (sc : SamplingConfig)
  (messages : list Message) (tools : option (list PyVal)) : exn + Params :=
  match split_messages messages [] [] with
  | inl e => inl e
  | inr (instructions, input_messages) =>
      let ptools :=
        match tools with
        | Some ((_ :: _) as ts) =>
            match format_tools_for_response_api ts with
            | [] => None
            | formatted_tools => Some formatted_tools
            end
        | _ => None
        end in
      let is_o := startswith self_model (py "o") in
      let '(mdl, reasoning) :=
        if is_o then
          let '(m, effort) := o_series_model self_model in (m, Some effort)
        else (self_model, None) in
      inr {| p_model := mdl;
             p_stream := true;
             p_instructions := match instructions with
                               | [] => None
                               | _ => Some instructions
                               end;
             p_input := input_messages;
             p_tools := ptools;
             p_temperature := match sc.(cfg_temperature) with
                              | Some t => if is_o then None else Some t
                              | None => None
                              end;
             p_max_output_tokens := sc.(cfg_max_tokens);
             p_reasoning := reasoning |}
  end.

(** ** [get_provider_from_model] (lines 418-439) *)

Definition get_provider_from_model (m : pystr) : pystr :=
  let model_lower := lower m in
  if existsb (fun prefix => contains model_lower prefix) [py "claude"] then
    py "anthropic"
  else if existsb (fun prefix => contains model_lower prefix) [py "gemini"] then
    py "google"
  else if existsb (fun prefix => contains model_lower prefix)
            [py "gpt"; py "o1"; py "o3"] then py "openai"
  else if existsb (fun prefix => contains model_lower prefix) [py "grok"] then
    py "xai"
  else py "openai".

(** ** [AgentBackend.get_token_usage], [reset_token_usage] and [get_status]
    (lines 98-127), with [get_provider_name] (lines 340-342) *)

Definition get_provider_name (self : OpenAIResponseBackend) : pystr :=
  py "openai".

Definition get_token_usage (self : OpenAIResponseBackend) : TokenUsage :=
  self.(token_usage).

(** [reset_token_usage()]; [now] is the [time.time()] of the new
    [TokenUsage]. *)
Definition reset_token_usage (self : OpenAIResponseBackend) (now : Q)
  : OpenAIResponseBackend :=
  {| config := self.(config); backend_model := self.(backend_model);
     token_usage := TokenUsage_new now |}.

(** The dict [get_status()] returns. *)
Record Status := mkStatus {
  st_provider : pystr;
  st_input_tokens : Z;
  st_output_tokens : Z;
  st_total_tokens : Z;
  st_estimated_cost : Q;
  st_config : Config
}.

Definition get_status (self : OpenAIResponseBackend) : Status :=
  {| st_provider := get_provider_name self;
     st_input_tokens := self.(token_usage).(input_tokens);
     st_output_tokens := self.(token_usage).(output_tokens);
     st_total_tokens := get_total_tokens self.(token_usage);
     st_estimated_cost := self.(token_usage).(estimated_cost);
     st_config := self.(config) |}.

(** ** Observations on the streamed chunks *)

Definition is_done_chunk (c : StreamChunk) : bool := pystr_eqb c.(type) (py "done").
Definition is_error_chunk (c : StreamChunk) : bool :=
  pystr_eqb c.(type) (py "error").

Definition count_done (out : list StreamChunk) : nat :=
  List.length (filter is_done_chunk out).

(** The provider event the loop treats as the completion. *)
Definition is_completed_event (ev : Event) : bool :=
  match ev.(ev_type) with
  | Some ty => pystr_eqb ty (py "response.completed")
  | None => false
  end.

Definition count_completed (evs : list Event) : nat :=
  List.length (filter is_completed_event evs).

(** The token counts the completion branch passes to [add_usage]: those of
    the [usage] attribute (0 when missing on it), or the locals' values when
    the event has no [usage] attribute. *)
Definition completion_tokens (st : LoopState) (ev : Event) : Z * Z :=
  match ev.(ev_usage) with
  | Some (mi, mo) => (value_or_zero mi, value_or_zero mo)
  | None => (st.(ls_input), st.(ls_output))
  end.

(** ** Observations for the tool lists, the request and the stream *)

Definition is_dict (v : PyVal) : bool :=
  match v with VDict _ => true | _ => false end.

(** What one iteration of [_format_tools_for_response_api] appends. *)
Definition format_response_tool (tool : PyVal) : list PyVal :=
  match tool with
  | VDict d =>
      if is_str (dict_get d (py "type")) (py "function") then [tool]
      else if dict_is_single d (py "type") (py "web_search_preview")
      then [web_search_tool]
      else if dict_is_single d (py "type") (py "code_interpreter")
      then [code_interpreter_auto]
      else [tool]
  | _ => []
  end.

Definition is_system (m : Message) : bool :=
  match m.(role) with
  | Some r => pystr_eqb r (py "system")
  | None => false
  end.

(** The content of the last system message of [msgs] that has one
    ([instr] when there is none). *)
Fixpoint last_system_content (msgs : list Message) (instr : pystr) : pystr :=
  match msgs with
  | [] => instr
  | m :: rest =>
      last_system_content rest
        (if is_system m
         then match m.(content_of) with Some c => c | None => instr end
         else instr)
  end.

(** The reasoning-effort suffixes of a model name and their efforts. *)
Definition effort_suffixes : list (pystr * pystr) :=
  [(py "-low", py "low"); (py "-medium", py "medium"); (py "-high", py "high")].

(** A fallback rate variable that, when it parses, is not negative. *)
Definition rate_nonneg (v : env_rate) : Prop :=
  match v with EnvFloat q => (0 <= q)%Q | _ => True end.

(** The events the loop body acts on. *)
Definition handled_event (ev : Event) : bool :=
  match ev.(ev_type) with
  | Some ty =>
      pystr_eqb ty (py "response.output_text.delta")
      || pystr_eqb ty (py "response.function_call_output.delta")
      || pystr_eqb ty (py "response.completed")
  | None => false
  end.

(** The chunk an event leads to when the loop body gets through it. *)
Definition event_chunks (ev : Event) : list StreamChunk :=
  match ev.(ev_type) with
  | None => []
  | Some ty =>
      if pystr_eqb ty (py "response.output_text.delta") then
        match ev.(ev_delta) with
        | Some ((_ :: _) as d) => [content_chunk d]
        | _ => []
        end
      else if pystr_eqb ty (py "response.function_call_output.delta") then
        [tool_calls_chunk ev.(ev_delta)]
      else if pystr_eqb ty (py "response.completed") then [done_chunk]
      else []
  end.

(** The name ends in none of the reasoning-effort suffixes. *)
Definition no_effort_suffix (m : pystr) : bool :=
  forallb (fun se => negb (endswith m (fst se))) effort_suffixes.

(** ** Sample inputs *)

Definition demo_env : Env := mkEnv EnvUnset EnvUnset (Some (py "sk-demo")).
Definition demo_bad_env : Env := mkEnv (EnvNotAFloat (py "abc")) EnvUnset None.
Definition demo_backend : OpenAIResponseBackend :=
  {| config := {| cfg_model := Some (py "gpt-4o-mini"); cfg_api_key := None |};
     backend_model := py "gpt-4o-mini"; token_usage := TokenUsage_new 0 |}.
Definition demo_sampling : SamplingConfig :=
  mkSamplingConfig (Some (VInt 1)) (Some (VInt 256)).
Definition demo_msg (r c : string) : Message := mkMessage (Some (py r)) (Some (py c)).
Definition demo_messages : list Message :=
  [demo_msg "system" "be brief"; demo_msg "user" "hi";
   demo_msg "system" "be kind"; demo_msg "assistant" "ok"].
Definition demo_events : list Event :=
  [mkEvent (Some (py "response.created")) None None;
   mkEvent (Some (py "response.output_text.delta")) (Some (py "Hi")) None;
   mkEvent None (Some (py "ignored")) None;
   mkEvent (Some (py "response.output_text.delta")) (Some []) None;
   mkEvent (Some (py "response.function_call_output.delta")) (Some (py "{}")) None;
   mkEvent (Some (py "response.completed")) None (Some (Some 12, Some 30))].

(** * Properties *)

(** ** Helper lemmas *)

Lemma pystr_eqb_eq (a b : pystr) : pystr_eqb a b = true <-> a = b.
Proof.
  revert b; induction a as [|x a IH]; intros [|y b]; simpl;
    try (split; congruence).
  rewrite andb_true_iff, N.eqb_eq, IH. split.
  - intros [-> ->]; reflexivity.
  - intros H; injection H; auto.
Qed.


Lemma replay_app (t : TokenUsage) (c1 c2 : list usage_call) :
  replay t (c1 ++ c2) = replay (replay t c1) c2.
Proof. unfold replay. apply fold_left_app. Qed.

Lemma replay_totals (t : TokenUsage) (calls : list usage_call) :
  input_tokens (replay t calls) = input_tokens t + sum_inputs calls /\
  output_tokens (replay t calls) = output_tokens t + sum_outputs calls /\
  (estimated_cost (replay t calls) == estimated_cost t + sum_costs calls)%Q.
Proof.
  revert t; induction calls as [|[[i o] q] calls IH]; intros t; simpl.
  - split; [lia|split; [lia|]]. rewrite Qplus_0_r. reflexivity.
  - destruct (IH (add_usage t i o q)) as [Hi [Ho Hq]].
    unfold replay in *; simpl in *.
    rewrite Hi, Ho, Hq. split; [lia|split; [lia|]].
    rewrite Qplus_assoc. reflexivity.
Qed.

(** ** C4: the totals are the sums of the calls *)

(** C4: after any sequence of [add_usage] calls on a fresh [TokenUsage],
    each total is the sum of the corresponding arguments, and two fresh
    accumulators (created at any times) given the same calls end with the
    same totals. *)
Theorem replay_fresh_sums (now1 now2 : Q) (calls : list usage_call) :
  input_tokens (replay (TokenUsage_new now1) calls) = sum_inputs calls /\
  output_tokens (replay (TokenUsage_new now1) calls) = sum_outputs calls /\
  (estimated_cost (replay (TokenUsage_new now1) calls) == sum_costs calls)%Q /\
  input_tokens (replay (TokenUsage_new now1) calls) =
    input_tokens (replay (TokenUsage_new now2) calls) /\
  output_tokens (replay (TokenUsage_new now1) calls) =
    output_tokens (replay (TokenUsage_new now2) calls) /\
  estimated_cost (replay (TokenUsage_new now1) calls) =
    estimated_cost (replay (TokenUsage_new now2) calls).
Proof.
  destruct (replay_totals (TokenUsage_new now1) calls) as [Hi [Ho Hq]].
  simpl in Hi, Ho, Hq. rewrite Qplus_0_l in Hq.
  split; [exact Hi|split; [exact Ho|split; [exact Hq|]]].
  assert (Hsame : forall calls (a b : TokenUsage),
    input_tokens a = input_tokens b -> output_tokens a = output_tokens b ->
    estimated_cost a = estimated_cost b ->
    input_tokens (replay a calls) = input_tokens (replay b calls) /\
    output_tokens (replay a calls) = output_tokens (replay b calls) /\
    estimated_cost (replay a calls) = estimated_cost (replay b calls)).
  { clear. induction calls as [|[[i o] q] calls IH]; intros a b H1 H2 H3.
    - auto.
    - apply IH; simpl; congruence. }
  apply Hsame; reflexivity.
Qed.

(** ** C6: total tokens *)

(** C6: [get_total_tokens] is [input_tokens + output_tokens]. *)
Theorem get_total_tokens_sum (t : TokenUsage) :
  get_total_tokens t = input_tokens t + output_tokens t.
Proof. reflexivity. Qed.

(** ** C9: token estimate *)

(** C9: [estimate_tokens(text)] is [len(text) // 4]; it is non-negative,
    [0] for texts shorter than 4 characters, and non-decreasing in the
    length of the text. *)
Theorem estimate_tokens_spec {A : Type} (text : list A) :
  estimate_tokens text = Z.of_nat (List.length text) / 4 /\
  0 <= estimate_tokens text /\
  ((List.length text < 4)%nat -> estimate_tokens text = 0) /\
  (forall text' : list A, (List.length text <= List.length text')%nat ->
     estimate_tokens text <= estimate_tokens text').
Proof.
  unfold estimate_tokens. split; [reflexivity|split; [|split]].
  - apply Z.div_pos; lia.
  - intros H. apply Z.div_small. lia.
  - intros text' H. apply Z.div_le_mono; lia.
Qed.

Lemma estimate_tokens_spec_witness :
  estimate_tokens (py "abc") = 0 /\ estimate_tokens (py "hello world") = 2 /\
  estimate_tokens (py "abc") <= estimate_tokens (py "hello world").
Proof.
  split; [|split].
  - apply (proj1 (proj2 (proj2 (estimate_tokens_spec (py "abc"))))).
    simpl; lia.
  - rewrite (proj1 (estimate_tokens_spec (py "hello world"))). reflexivity.
  - apply (proj2 (proj2 (proj2 (estimate_tokens_spec (py "abc"))))).
    simpl; lia.
Defined.

(** ** C10: the factory *)

Definition no_key_env : Env := mkEnv EnvUnset EnvUnset None.

(** C10 (counterexample): with no API key in the arguments nor in
    [OPENAI_API_KEY], [create_backend("openai", "gpt-4o")] raises
    [ValueError], it does not return a backend. *)
Lemma create_backend_openai_without_key :
  create_backend (py "openai") (py "gpt-4o") None no_key_env true 0 =
  inl (ValueError (py "OpenAI API key not found")).
Proof. vm_compute. reflexivity. Qed.

Definition key_found (api_key : option pystr) (env : Env) : bool :=
  match truthy api_key, truthy env.(OPENAI_API_KEY) with
  | None, None => false
  | _, _ => true
  end.

(** C10 (amended): a provider whose [lower()] is not ["openai"] raises
    [ValueError("Unsupported provider: ...")]; for one whose [lower()] is
    ["openai"], [create_backend] returns an [OpenAIResponseBackend] for
    [model] with a fresh accumulator when the [openai] package imports and a
    non-empty API key is given or found in [OPENAI_API_KEY]; otherwise it
    raises [ImportError] (package missing) or
    [ValueError("OpenAI API key not found")] (no key). *)
Theorem create_backend_spec (provider model_name : pystr)
  (api_key : option pystr) (env : Env) (openai_installed : bool) (now : Q) :
  (lower provider <> py "openai" ->
   create_backend provider model_name api_key env openai_installed now =
   inl (ValueError (py "Unsupported provider: " ++ provider))) /\
  (lower provider = py "openai" ->
   create_backend provider model_name api_key env openai_installed now =
   if negb openai_installed then
     inl (ImportError
            (py "OpenAI package not installed. Install with: pip install openai"))
   else if key_found api_key env then
     inr {| config := {| cfg_model := Some model_name; cfg_api_key := api_key |};
            backend_model := model_name; token_usage := TokenUsage_new now |}
   else inl (ValueError (py "OpenAI API key not found"))).
Proof.
  unfold create_backend. split; intros H.
  - destruct (pystr_eqb (lower provider) (py "openai")) eqn:E; [|reflexivity].
    apply pystr_eqb_eq in E. contradiction.
  - rewrite (proj2 (pystr_eqb_eq _ _) H).
    unfold OpenAIResponseBackend_new, key_found. simpl.
    destruct openai_installed; [|reflexivity]. simpl.
    destruct (truthy api_key); [reflexivity|].
    destruct (truthy (OPENAI_API_KEY env)); reflexivity.
Qed.

Lemma create_backend_spec_witness :
  create_backend (py "Anthropic") (py "claude") None no_key_env true 0 =
    inl (ValueError (py "Unsupported provider: Anthropic")) /\
  create_backend (py "OpenAI") (py "gpt-4o") (Some (py "k")) no_key_env true 0 =
    inr {| config := {| cfg_model := Some (py "gpt-4o");
                        cfg_api_key := Some (py "k") |};
           backend_model := py "gpt-4o"; token_usage := TokenUsage_new 0 |}.
Proof.
  split.
  - apply (proj1 (create_backend_spec (py "Anthropic") (py "claude") None
                    no_key_env true 0)).
    vm_compute. discriminate.
  - apply (proj2 (create_backend_spec (py "OpenAI") (py "gpt-4o")
                    (Some (py "k")) no_key_env true 0)).
    vm_compute. reflexivity.
Defined.

(** ** The loop body *)

Ltac decide_type :=
  repeat match goal with
  | H : pystr_eqb _ _ = true |- _ => apply pystr_eqb_eq in H; subst
  end.

Lemma step_not_completion (env : Env) (m : pystr) (st : LoopState)
  (ev : Event) :
  is_completed_event ev = false ->
  exists out st',
    step env m st ev = inr (out, st') /\
    ls_usage st' = ls_usage st /\ ls_input st' = ls_input st /\
    ls_output st' = ls_output st /\
    Forall (fun c => is_done_chunk c = false /\ is_error_chunk c = false) out.
Proof.
  unfold is_completed_event, step. intros Hc.
  destruct (ev_type ev) as [ty|]; [|eexists [], st; repeat split; auto].
  rewrite Hc.
  destruct (pystr_eqb ty (py "response.output_text.delta"));
    [destruct (ev_delta ev) as [[|x d]|]
    |destruct (pystr_eqb ty (py "response.function_call_output.delta"))];
    (eexists _, _; split; [reflexivity|]);
    simpl; repeat split; auto; repeat constructor.
Qed.

Lemma step_completion (env : Env) (m : pystr) (st : LoopState)
  (ev : Event) :
  is_completed_event ev = true ->
  step env m st ev =
  (let '(i, o) := completion_tokens st ev in
   match calculate_cost env i o m with
   | inl e => inl e
   | inr cost =>
       inr ([done_chunk],
            {| ls_usage := add_usage st.(ls_usage) i o cost;
               ls_text := st.(ls_text); ls_input := i; ls_output := o |})
   end).
Proof.
  unfold is_completed_event, step, completion_tokens. intros Hc.
  destruct (ev_type ev) as [ty|]; [|discriminate].
  decide_type. vm_compute pystr_eqb at 1 2 3. reflexivity.
Qed.

(** ** The loop *)

Definition no_done_no_error (c : StreamChunk) : Prop :=
  is_done_chunk c = false /\ is_error_chunk c = false.

Lemma done_chunk_props :
  is_done_chunk done_chunk = true /\ is_error_chunk done_chunk = false.
Proof. split; vm_compute; reflexivity. Qed.

Lemma error_chunk_props (e : exn) :
  is_done_chunk (error_chunk e) = false /\ is_error_chunk (error_chunk e) = true.
Proof. split; vm_compute; reflexivity. Qed.

Lemma count_done_app (a b : list StreamChunk) :
  count_done (a ++ b) = (count_done a + count_done b)%nat.
Proof. unfold count_done. rewrite filter_app, length_app. reflexivity. Qed.

Lemma count_done_none (out : list StreamChunk) :
  Forall no_done_no_error out -> count_done out = 0%nat.
Proof.
  induction 1 as [|c out [Hd _] _ IH]; [reflexivity|].
  unfold count_done in *; simpl. rewrite Hd. exact IH.
Qed.

(** The loop never yields an [error] chunk; its [done] chunks are those of
    the completion events it gets through; its accumulator is the initial
    one after one [add_usage] call per [done] chunk. *)
Lemma async_for_chunks (env : Env) (m : pystr) (evs : list Event)
  (fin : stream_end) (st : LoopState) :
  let '(out, exc, st') := async_for env m evs fin st in
  Forall (fun c => is_error_chunk c = false) out /\
  (exc = None -> count_done out = count_completed evs) /\
  exists calls, ls_usage st' = replay (ls_usage st) calls /\
                List.length calls = count_done out.
Proof.
  revert st; induction evs as [|ev evs IH]; intros st; simpl.
  - destruct fin; (split; [constructor|split; [intros H; try discriminate;
      reflexivity|exists []; split; reflexivity]]).
  - destruct (is_completed_event ev) eqn:Hc.
    + rewrite (step_completion env m st ev Hc).
      destruct (completion_tokens st ev) as [i o].
      destruct (calculate_cost env i o m) as [e|cost].
      * split; [constructor|split; [discriminate|exists []; split; reflexivity]].
      * specialize (IH {| ls_usage := add_usage (ls_usage st) i o cost;
                          ls_text := ls_text st; ls_input := i;
                          ls_output := o |}).
        destruct (async_for env m evs fin _) as [[rest exc] st''].
        destruct IH as [Herr [Hcnt [calls [Hu Hl]]]].
        split; [constructor; [apply done_chunk_props|exact Herr]|split].
        -- intros He. unfold count_completed, count_done in *.
           cbn [app filter List.length].
           rewrite Hc, (proj1 done_chunk_props). cbn [List.length].
           rewrite (Hcnt He). reflexivity.
        -- exists ((i, o, cost) :: calls). split; [exact Hu|].
           unfold count_done in *; cbn [app filter List.length].
           rewrite (proj1 done_chunk_props). cbn [List.length]. rewrite Hl. reflexivity.
    + destruct (step_not_completion env m st ev Hc)
        as [out [st1 [Hs [Hu1 [_ [_ Hout]]]]]].
      rewrite Hs.
      specialize (IH st1).
      destruct (async_for env m evs fin st1) as [[rest exc] st''].
      destruct IH as [Herr [Hcnt [calls [Hu Hl]]]].
      split; [apply Forall_app; split; [|exact Herr]|split].
      * eapply Forall_impl; [|exact Hout]. intros c [_ H]; exact H.
      * intros He. rewrite count_done_app, (count_done_none out Hout).
        unfold count_completed in *; cbn [filter]; rewrite Hc. apply Hcnt, He.
      * exists calls. rewrite count_done_app, (count_done_none out Hout).
        rewrite Hu, Hu1. split; [reflexivity|exact Hl].
Qed.

(** Running the loop over [pre ++ post] when it gets through [pre]. *)
Lemma async_for_app (env : Env) (m : pystr) (pre post : list Event)
  (fin : stream_end) (st st1 : LoopState) (out : list StreamChunk) :
  async_for env m pre Stops st = (out, None, st1) ->
  async_for env m (pre ++ post) fin st =
  (let '(rest, exc, st2) := async_for env m post fin st1 in
   (out ++ rest, exc, st2)).
Proof.
  revert st out; induction pre as [|ev pre IH]; intros st out H; simpl in *.
  - injection H as <- <-. destruct (async_for env m post fin st) as [[r e] s].
    reflexivity.
  - destruct (step env m st ev) as [e|[o st']]; [discriminate|].
    destruct (async_for env m pre Stops st') as [[r e] s] eqn:Hpre.
    injection H as Hout He Hs. subst out e st1.
    rewrite (IH st' r Hpre).
    destruct (async_for env m post fin s) as [[r2 e2] s2].
    rewrite app_assoc. reflexivity.
Qed.

Lemma async_for_prefix_ok (env : Env) (m : pystr) (pre post : list Event)
  (fin : stream_end) (st st' : LoopState) (out : list StreamChunk) :
  async_for env m (pre ++ post) fin st = (out, None, st') ->
  exists out1 st1, async_for env m pre Stops st = (out1, None, st1).
Proof.
  revert st st' out; induction pre as [|ev pre IH]; intros st st' out H;
    simpl in *.
  - eauto.
  - destruct (step env m st ev) as [e|[o st1]]; [discriminate|].
    destruct (async_for env m (pre ++ post) fin st1) as [[r e] s] eqn:Hr.
    injection H as _ He _. subst e.
    destruct (IH st1 s r Hr) as [out1 [st2 Hpre]].
    rewrite Hpre. eauto.
Qed.

Lemma async_for_keeps_locals (env : Env) (m : pystr) (evs : list Event)
  (st st' : LoopState) (out : list StreamChunk) :
  count_completed evs = 0%nat ->
  async_for env m evs Stops st = (out, None, st') ->
  ls_input st' = ls_input st /\ ls_output st' = ls_output st.
Proof.
  revert st out; induction evs as [|ev evs IH]; intros st out Hc H; simpl in *.
  - injection H as _ <-. auto.
  - unfold count_completed in Hc; simpl in Hc.
    destruct (is_completed_event ev) eqn:Hev; [discriminate|].
    destruct (step_not_completion env m st ev Hev)
      as [o [st1 [Hs [_ [Hi [Ho _]]]]]].
    rewrite Hs in H.
    destruct (async_for env m evs Stops st1) as [[r e] s] eqn:Hr.
    injection H as _ He Hs'. subst e s.
    destruct (IH st1 r Hc Hr) as [Hi' Ho']. rewrite Hi', Ho'. auto.
Qed.

(** The [try] body never yields an [error] chunk, and changes the
    accumulator only through one [add_usage] call per [done] chunk. *)
Lemma try_body_chunks (env : Env) (self : OpenAIResponseBackend)
  (messages : list Message) (resp : create_outcome) :
  let '(body, exc, u) := try_body env self messages resp in
  Forall (fun c => is_error_chunk c = false) body /\
  (exists calls, u = replay (token_usage self) calls /\
                 List.length calls = count_done body) /\
  (forall evs fin, resp = CreateReturns evs fin -> exc = None ->
     count_done body = count_completed evs).
Proof.
  unfold try_body.
  destruct (split_messages messages [] []) as [e|sm].
  { split; [constructor|split; [exists []; auto|intros ? ? _ H; discriminate]]. }
  destruct resp as [e|evs fin].
  { split; [constructor|split; [exists []; auto|intros ? ? H; discriminate]]. }
  pose proof (async_for_chunks env (backend_model self) evs fin
                (init_loop_state self)) as H.
  destruct (async_for env (backend_model self) evs fin (init_loop_state self))
    as [[out exc] st].
  destruct H as [Herr [Hcnt Hcalls]].
  split; [exact Herr|split; [exact Hcalls|]].
  intros evs' fin' Heq He. injection Heq as <- <-. apply Hcnt, He.
Qed.

Lemma stream_with_tools_out (env : Env) (self : OpenAIResponseBackend)
  (messages : list Message) (resp : create_outcome) :
  let '(body, exc, u) := try_body env self messages resp in
  fst (stream_with_tools env self messages resp) =
    body ++ match exc with Some e => [error_chunk e] | None => [] end /\
  token_usage (snd (stream_with_tools env self messages resp)) = u.
Proof.
  unfold stream_with_tools.
  destruct (try_body env self messages resp) as [[body exc] u]. auto.
Qed.

(** ** C3: a failure becomes one final [error] chunk *)

(** C3: whatever the [try] body raises (a [KeyError] while preparing the
    request, the client's failure in [responses.create], or a failure while
    iterating or processing the response), [stream_with_tools] yields the
    chunks of the body so far, then one [error] chunk whose [error] is
    [str(e)] and whose [source] is ["openai"], and nothing else; the method
    returns normally. When nothing is raised, no [error] chunk is yielded. *)
Theorem stream_failure_single_error (env : Env) (self : OpenAIResponseBackend)
  (messages : list Message) (resp : create_outcome) :
  let '(body, exc, _) := try_body env self messages resp in
  match exc with
  | Some e =>
      fst (stream_with_tools env self messages resp) = body ++ [error_chunk e] /\
      Forall (fun c => is_error_chunk c = false) body /\
      type (error_chunk e) = py "error" /\
      error (error_chunk e) = Some (str_of_exn e) /\
      source (error_chunk e) = Some (py "openai")
  | None =>
      Forall (fun c => is_error_chunk c = false)
        (fst (stream_with_tools env self messages resp))
  end.
Proof.
  pose proof (try_body_chunks env self messages resp) as H.
  pose proof (stream_with_tools_out env self messages resp) as Hs.
  destruct (try_body env self messages resp) as [[body exc] u].
  destruct H as [Herr _]. destruct Hs as [Hout _].
  destruct exc as [e|].
  - rewrite Hout. auto.
  - rewrite Hout, app_nil_r. exact Herr.
Qed.

(** ** C1: [done] chunks of the backend stream *)

Definition empty_env : Env := mkEnv EnvUnset EnvUnset (Some (py "sk-test")).
Definition sample_backend : OpenAIResponseBackend :=
  {| config := {| cfg_model := Some (py "gpt-4o"); cfg_api_key := None |};
     backend_model := py "gpt-4o"; token_usage := TokenUsage_new 0 |}.

(** C1 (counterexample): a provider stream that ends without a
    [response.completed] event makes [stream_with_tools] yield no [done]
    chunk at all; a failure ends the sequence with an [error] chunk and no
    [done]. *)
Lemma stream_without_completion_has_no_done :
  fst (stream_with_tools empty_env sample_backend []
         (CreateReturns [] Stops)) = [] /\
  fst (stream_with_tools empty_env sample_backend []
         (CreateRaises (ProviderError (py "connection reset")))) =
    [error_chunk (ProviderError (py "connection reset"))].
Proof. split; reflexivity. Qed.

(** The [done] chunks of the loop are the [done_chunk] of the completion
    events it gets through, so there are at most as many as there are
    completion events. *)
Lemma async_for_done (env : Env) (m : pystr) (evs : list Event)
  (fin : stream_end) (st : LoopState) :
  let '(out, _, _) := async_for env m evs fin st in
  Forall (fun c => is_done_chunk c = true -> c = done_chunk) out /\
  (count_done out <= count_completed evs)%nat.
Proof.
  revert st; induction evs as [|ev evs IH]; intros st; simpl.
  - destruct fin; (split; [constructor|reflexivity]).
  - destruct (is_completed_event ev) eqn:Hc.
    + rewrite (step_completion env m st ev Hc).
      destruct (completion_tokens st ev) as [i o].
      destruct (calculate_cost env i o m) as [e|cost].
      * split; [constructor|unfold count_done; simpl; lia].
      * specialize (IH {| ls_usage := add_usage (ls_usage st) i o cost;
                          ls_text := ls_text st; ls_input := i;
                          ls_output := o |}).
        destruct (async_for env m evs fin _) as [[rest exc] st''].
        destruct IH as [Hd Hn].
        split; [constructor; [reflexivity|exact Hd]|].
        unfold count_completed, count_done in *.
        cbn [app filter List.length].
        rewrite Hc, (proj1 done_chunk_props). cbn [List.length]. lia.
    + destruct (step_not_completion env m st ev Hc)
        as [out [st1 [Hs [_ [_ [_ Hout]]]]]].
      rewrite Hs.
      specialize (IH st1).
      destruct (async_for env m evs fin st1) as [[rest exc] st''].
      destruct IH as [Hd Hn].
      split.
      * apply Forall_app; split; [|exact Hd].
        eapply Forall_impl; [|exact Hout]. intros c [H _] H'. congruence.
      * rewrite count_done_app, (count_done_none out Hout).
        unfold count_completed in *; cbn [filter]; rewrite Hc. exact Hn.
Qed.

(** C1 (amended): for every answer of the provider, the [done] chunks
    [stream_with_tools] yields are [done_chunk] (status ["completed"],
    source ["openai"]). When the [try] body raises nothing, there is
    exactly one per [response.completed] event of the provider's stream.
    When it raises (also when [responses.create] raises), the sequence
    ends with the [error] chunk, which is its only [error] chunk, and no
    [done] follows it. A provider stream with no [response.completed]
    event yields no [done], whether or not something raises. So when the
    stream's only [response.completed] event is its last event and
    nothing raises, exactly one [done] is yielded and it is the last
    chunk. *)
Theorem stream_done_per_completion (env : Env) (self : OpenAIResponseBackend)
  (messages : list Message) (resp : create_outcome) :
  let out := fst (stream_with_tools env self messages resp) in
  let exc := snd (fst (try_body env self messages resp)) in
  Forall (fun c => is_done_chunk c = true -> c = done_chunk) out /\
  (forall evs fin, resp = CreateReturns evs fin -> exc = None ->
     count_done out = count_completed evs) /\
  (forall e, exc = Some e ->
     exists pre, out = pre ++ [error_chunk e] /\
                 Forall (fun c => is_error_chunk c = false) pre) /\
  (forall e, resp = CreateRaises e ->
     exists e', exc = Some e' /\ out = [error_chunk e']) /\
  (forall evs fin, resp = CreateReturns evs fin ->
     count_completed evs = 0%nat -> count_done out = 0%nat) /\
  (forall evs fin pre ev, resp = CreateReturns evs fin -> exc = None ->
     evs = pre ++ [ev] -> is_completed_event ev = true ->
     count_completed pre = 0%nat ->
     exists p, out = p ++ [done_chunk] /\ count_done p = 0%nat).
Proof.
  cbv zeta.
  pose proof (try_body_chunks env self messages resp) as H.
  pose proof (stream_with_tools_out env self messages resp) as Hs.
  destruct (try_body env self messages resp) as [[body exc] u] eqn:Hbody.
  destruct H as [Herr [_ Hcnt]]. destruct Hs as [Hout _].
  rewrite Hout. simpl.
  assert (Hdone : Forall (fun c => is_done_chunk c = true -> c = done_chunk) body
                  /\ forall evs fin, resp = CreateReturns evs fin ->
                     (count_done body <= count_completed evs)%nat).
  { unfold try_body in Hbody.
    destruct (split_messages messages [] []).
    - injection Hbody as <- _ _.
      split; [constructor|intros; unfold count_done; simpl; lia].
    - destruct resp as [e|evs fin].
      + injection Hbody as <- _ _.
        split; [constructor|intros; discriminate].
      + pose proof (async_for_done env (backend_model self) evs fin
                      (init_loop_state self)) as Hd.
        destruct (async_for env (backend_model self) evs fin
                    (init_loop_state self)) as [[o e'] st].
        injection Hbody as <- _ _. destruct Hd as [Hd Hn].
        split; [exact Hd|]. intros evs' fin' Heq.
        injection Heq as <- <-. exact Hn. }
  destruct Hdone as [Hdone Hle].
  split; [|split; [|split; [|split; [|split]]]].
  - apply Forall_app; split; [exact Hdone|].
    destruct exc as [e|]; [|constructor].
    constructor; [|constructor].
    intros H. vm_compute in H. discriminate.
  - intros evs fin Hr ->. rewrite app_nil_r. apply (Hcnt evs fin Hr eq_refl).
  - intros e ->. eauto.
  - intros e ->. unfold try_body in Hbody.
    destruct (split_messages messages [] []);
      injection Hbody as <- <- _; eauto.
  - intros evs fin Hr Hz. rewrite count_done_app.
    specialize (Hle evs fin Hr). rewrite Hz in Hle.
    destruct exc as [e|]; unfold count_done in *; simpl; lia.
  - intros evs fin pre ev -> -> Hevs Hc Hpre. subst evs. rewrite app_nil_r.
    unfold try_body in Hbody.
    destruct (split_messages messages [] []); [discriminate|].
    set (m := backend_model self) in Hbody.
    set (st0 := init_loop_state self) in Hbody.
    destruct (async_for env m (pre ++ [ev]) fin st0)
      as [[o e'] st] eqn:Hrun.
    injection Hbody as Ho He Hu. subst o e'.
    destruct (async_for_prefix_ok env m pre [ev] fin st0 st body Hrun)
      as [out1 [st1 Hpre_run]].
    rewrite (async_for_app env m pre [ev] fin st0 st1 out1 Hpre_run) in Hrun.
    pose proof (async_for_chunks env m pre Stops st0) as Hc1.
    rewrite Hpre_run in Hc1. destruct Hc1 as [_ [Hc1 _]].
    specialize (Hc1 eq_refl). rewrite Hpre in Hc1.
    simpl in Hrun. rewrite (step_completion env m st1 ev Hc) in Hrun.
    destruct (completion_tokens st1 ev) as [i o].
    destruct (calculate_cost env i o m) as [e|cost];
      [simpl in Hrun; congruence|].
    destruct fin as [|e]; [|simpl in Hrun; congruence].
    injection Hrun as Hb _. subst body.
    exists out1. split; [reflexivity|exact Hc1].
Qed.

Lemma stream_done_per_completion_witness :
  let ev := mkEvent (Some (py "response.completed")) None
              (Some (Some 10, Some 20)) in
  fst (stream_with_tools empty_env sample_backend [] (CreateReturns [ev] Stops))
    = [done_chunk] /\
  exists p, fst (stream_with_tools empty_env sample_backend []
                   (CreateReturns [ev] Stops)) = p ++ [done_chunk] /\
            count_done p = 0%nat.
Proof.
  cbv zeta. split; [vm_compute; reflexivity|].
  assert (Hexc : snd (fst (try_body empty_env sample_backend []
                   (CreateReturns [mkEvent (Some (py "response.completed")) None
                      (Some (Some 10, Some 20))] Stops))) = None)
    by (vm_compute; reflexivity).
  assert (Hc : is_completed_event (mkEvent (Some (py "response.completed")) None
                 (Some (Some 10, Some 20))) = true) by (vm_compute; reflexivity).
  exact (proj2 (proj2 (proj2 (proj2 (proj2 (stream_done_per_completion
           empty_env sample_backend []
           (CreateReturns [mkEvent (Some (py "response.completed")) None
              (Some (Some 10, Some 20))] Stops))))))
           [mkEvent (Some (py "response.completed")) None
              (Some (Some 10, Some 20))] Stops []
           (mkEvent (Some (py "response.completed")) None
              (Some (Some 10, Some 20))) eq_refl Hexc eq_refl Hc eq_refl).
Defined.

(** ** C5: accounting on [response.completed] *)

Definition completed_with (u : option (option Z * option Z)) : Event :=
  mkEvent (Some (py "response.completed")) None u.

Definition bad_rate_env : Env :=
  mkEnv (EnvNotAFloat (py "cheap")) EnvUnset (Some (py "sk-test")).
Definition unknown_model_backend : OpenAIResponseBackend :=
  {| config := {| cfg_model := Some (py "my-model"); cfg_api_key := None |};
     backend_model := py "my-model"; token_usage := TokenUsage_new 0 |}.

(** C5 (counterexample): a second [response.completed] event without
    [usage] adds the token counts of the previous one again, not 0; and with
    a model outside the pricing table and a [FALLBACK_INPUT_RATE] that
    [float] rejects, [calculate_cost] raises: no usage is added and an
    [error] chunk, not a [done] chunk, is yielded. *)
Lemma completion_accounting_fails :
  input_tokens (token_usage (snd (stream_with_tools empty_env sample_backend []
    (CreateReturns [completed_with (Some (Some 100, Some 50));
                    completed_with None] Stops)))) = 200 /\
  stream_with_tools bad_rate_env unknown_model_backend []
    (CreateReturns [completed_with (Some (Some 100, Some 50))] Stops) =
  ([error_chunk (ValueError (py "could not convert string to float: 'cheap'"))],
   unknown_model_backend).
Proof. split; vm_compute; reflexivity. Qed.

(** The token counts a completion event reports: its [usage] values, 0 for
    a value missing on [usage], and 0 for both without [usage]. *)
Definition reported_tokens (ev : Event) : Z * Z :=
  match ev.(ev_usage) with
  | Some (mi, mo) => (value_or_zero mi, value_or_zero mo)
  | None => (0, 0)
  end.

(** C5 (amended): let the loop get through the events [pre] without
    raising, in accumulator state [st], and then reach a
    [response.completed] event [ev] that carries [usage] or is the first
    completion event of the stream. With [(i, o)] the counts [ev] reports
    (0 when missing): if [calculate_cost(i, o, model)] returns [cost], the
    event yields a [done] chunk with status ["completed"] right after the
    chunks of [pre] and leaves the accumulator as [add_usage(i, o, cost)]
    applied to it; if [calculate_cost] raises [e], the stream ends with the
    [error] chunk of [e] and the accumulator is left as it was. *)
Theorem completion_accounting (env : Env) (self : OpenAIResponseBackend)
  (messages : list Message) (sm : pystr * list Message)
  (pre post : list Event) (ev : Event) (fin : stream_end)
  (chunks : list StreamChunk) (st : LoopState)
  (Hsplit : split_messages messages [] [] = inr sm)
  (Hpre : async_for env (backend_model self) pre Stops (init_loop_state self)
          = (chunks, None, st))
  (Hev : is_completed_event ev = true)
  (Hfirst : ev_usage ev <> None \/ count_completed pre = 0%nat) :
  let '(i, o) := reported_tokens ev in
  (forall cost, calculate_cost env i o (backend_model self) = inr cost ->
     (exists rest,
        fst (stream_with_tools env self messages
               (CreateReturns (pre ++ ev :: post) fin))
        = chunks ++ done_chunk :: rest) /\
     (exists st',
        async_for env (backend_model self) (pre ++ [ev]) Stops
          (init_loop_state self) = (chunks ++ [done_chunk], None, st') /\
        ls_usage st' = add_usage (ls_usage st) i o cost)) /\
  (forall e, calculate_cost env i o (backend_model self) = inl e ->
     fst (stream_with_tools env self messages
            (CreateReturns (pre ++ ev :: post) fin))
     = chunks ++ [error_chunk e] /\
     token_usage (snd (stream_with_tools env self messages
                         (CreateReturns (pre ++ ev :: post) fin)))
     = ls_usage st).
Proof.
  assert (Htok : completion_tokens st ev = reported_tokens ev).
  { unfold completion_tokens, reported_tokens.
    destruct (ev_usage ev) as [[mi mo]|] eqn:Hu; [reflexivity|].
    destruct Hfirst as [Hf|Hf]; [contradiction|].
    destruct (async_for_keeps_locals env (backend_model self) pre
                (init_loop_state self) st chunks Hf Hpre) as [-> ->].
    reflexivity. }
  pose proof (step_completion env (backend_model self) st ev Hev) as Hstep.
  rewrite Htok in Hstep.
  destruct (reported_tokens ev) as [i o].
  split.
  - intros cost Hc. rewrite Hc in Hstep.
    set (st' := {| ls_usage := add_usage (ls_usage st) i o cost;
                   ls_text := ls_text st; ls_input := i; ls_output := o |}).
    assert (Hrun1 : async_for env (backend_model self) (pre ++ [ev]) Stops
                      (init_loop_state self)
                    = (chunks ++ [done_chunk], None, st')).
    { rewrite (async_for_app env (backend_model self) pre [ev] Stops _ st
                 chunks Hpre).
      simpl. rewrite Hstep. reflexivity. }
    split.
    + unfold stream_with_tools, try_body. rewrite Hsplit.
      replace (pre ++ ev :: post) with ((pre ++ [ev]) ++ post)
        by (rewrite <- app_assoc; reflexivity).
      rewrite (async_for_app env (backend_model self) (pre ++ [ev]) post fin
                 _ st' _ Hrun1).
      destruct (async_for env (backend_model self) post fin st')
        as [[r e] s].
      simpl. rewrite <- !app_assoc. eexists. reflexivity.
    + exists st'. split; [exact Hrun1|reflexivity].
  - intros e Hc. rewrite Hc in Hstep.
    unfold stream_with_tools, try_body. rewrite Hsplit.
    rewrite (async_for_app env (backend_model self) pre (ev :: post) fin
               _ st chunks Hpre).
    simpl. rewrite Hstep. simpl. rewrite app_nil_r. split; reflexivity.
Qed.

Lemma completion_accounting_witness :
  exists st',
    async_for empty_env (py "gpt-4o")
      ([] ++ [completed_with (Some (Some 1000%Z, Some 2000%Z))]) Stops
      (init_loop_state sample_backend) = ([] ++ [done_chunk], None, st') /\
    ls_usage st' =
      add_usage (TokenUsage_new 0) 1000 2000
        (tokens_cost 1000 2000 (25 # 10000, 1 # 100)).
Proof.
  assert (H1 : split_messages [] [] [] = inr ([] : pystr, [] : list Message))
    by reflexivity.
  assert (H2 : async_for empty_env (backend_model sample_backend) [] Stops
                 (init_loop_state sample_backend)
               = ([], None, init_loop_state sample_backend)) by reflexivity.
  assert (H3 : ev_usage (completed_with (Some (Some 1000%Z, Some 2000%Z)))
               <> None) by discriminate.
  pose proof (completion_accounting empty_env sample_backend [] ([], [])
    [] [] (completed_with (Some (Some 1000%Z, Some 2000%Z))) Stops []
    (init_loop_state sample_backend) H1 H2 eq_refl (or_introl H3)) as H.
  cbn [reported_tokens completed_with ev_usage value_or_zero] in H.
  destruct H as [H _].
  destruct (H (tokens_cost 1000 2000 (25 # 10000, 1 # 100))) as [_ Hrun].
  - vm_compute. reflexivity.
  - exact Hrun.
Defined.

(** ** C8: the error path adds no usage *)

(** C8: when [stream_with_tools] ends with an [error] chunk and yielded no
    [done] chunk before it (a [done] chunk is yielded for each
    [response.completed] event processed without raising), the backend's
    accumulator is the one it had before the call. *)
Theorem error_keeps_usage (env : Env) (self : OpenAIResponseBackend)
  (messages : list Message) (resp : create_outcome)
  (pre : list StreamChunk) (e : exn)
  (Hend : fst (stream_with_tools env self messages resp) = pre ++ [error_chunk e])
  (Hnodone : count_done pre = 0%nat) :
  token_usage (snd (stream_with_tools env self messages resp)) = token_usage self.
Proof.
  pose proof (try_body_chunks env self messages resp) as H.
  pose proof (stream_with_tools_out env self messages resp) as Hs.
  destruct (try_body env self messages resp) as [[body exc] u].
  destruct H as [Herr [[calls [Hu Hl]] _]]. destruct Hs as [Hout Husage].
  rewrite Husage, Hu.
  assert (Hbody : body = pre).
  { rewrite Hend in Hout. destruct exc as [e'|].
    - apply app_inj_tail in Hout. symmetry. apply Hout.
    - rewrite app_nil_r in Hout. subst body.
      apply Forall_app in Herr. destruct Herr as [_ Herr].
      inversion Herr as [|c l Hc _]. subst.
      rewrite (proj2 (error_chunk_props e)) in Hc. discriminate. }
  subst body. rewrite Hnodone in Hl.
  destruct calls; [reflexivity|discriminate].
Qed.

Lemma error_keeps_usage_witness :
  fst (stream_with_tools empty_env sample_backend []
         (CreateReturns [] (Raises (ProviderError (py "timeout")))))
    = [] ++ [error_chunk (ProviderError (py "timeout"))] /\
  token_usage (snd (stream_with_tools empty_env sample_backend []
         (CreateReturns [] (Raises (ProviderError (py "timeout"))))))
    = token_usage sample_backend.
Proof.
  assert (Hend : fst (stream_with_tools empty_env sample_backend []
         (CreateReturns [] (Raises (ProviderError (py "timeout")))))
    = [] ++ [error_chunk (ProviderError (py "timeout"))]) by reflexivity.
  split; [exact Hend|].
  exact (error_keeps_usage empty_env sample_backend []
           (CreateReturns [] (Raises (ProviderError (py "timeout"))))
           [] (ProviderError (py "timeout")) Hend eq_refl).
Defined.

(** ** C2: monotonicity of the totals *)

(** C2 (counterexample): [add_usage] does not check its arguments; a
    negative [input_tokens] decreases the [input_tokens] total. *)
Lemma add_usage_negative_decreases :
  input_tokens (add_usage (TokenUsage_new 0) (-1) 0 0) <
  input_tokens (TokenUsage_new 0).
Proof. vm_compute. reflexivity. Qed.

(** C2 (amended): for non-negative [input_tokens], [output_tokens] and
    [cost], [add_usage] leaves each of the three totals greater than or
    equal to its previous value; [model], [provider] and [timestamp] are
    unchanged. The streaming method changes the backend's accumulator only
    through [add_usage] calls. *)
Theorem add_usage_monotone (t : TokenUsage) (i o : Z) (cost : Q)
  (Hi : 0 <= i) (Ho : 0 <= o) (Hc : (0 <= cost)%Q) :
  input_tokens t <= input_tokens (add_usage t i o cost) /\
  output_tokens t <= output_tokens (add_usage t i o cost) /\
  (estimated_cost t <= estimated_cost (add_usage t i o cost))%Q /\
  model (add_usage t i o cost) = model t /\
  provider (add_usage t i o cost) = provider t /\
  timestamp (add_usage t i o cost) = timestamp t /\
  (forall env self messages resp,
     exists calls, token_usage (snd (stream_with_tools env self messages resp))
                   = replay (token_usage self) calls).
Proof.
  cbn [add_usage input_tokens output_tokens estimated_cost model provider
       timestamp].
  split; [lia|split; [lia|split; [|split; [|split; [|split]]]]];
    try reflexivity.
  - rewrite <- (Qplus_0_r (estimated_cost t)) at 1.
    apply Qplus_le_compat; [apply Qle_refl|exact Hc].
  - intros env self messages resp.
    pose proof (try_body_chunks env self messages resp) as H.
    pose proof (stream_with_tools_out env self messages resp) as Hs.
    destruct (try_body env self messages resp) as [[body exc] u].
    destruct H as [_ [[calls [Hu _]] _]]. destruct Hs as [_ Husage].
    exists calls. rewrite Husage. exact Hu.
Qed.

Lemma add_usage_monotone_witness :
  (0 <= 5 /\ 0 <= 7 /\ (0 <= 1 # 100)%Q) /\
  (input_tokens (TokenUsage_new 0) <=
     input_tokens (add_usage (TokenUsage_new 0) 5 7 (1 # 100)) /\
   output_tokens (TokenUsage_new 0) <=
     output_tokens (add_usage (TokenUsage_new 0) 5 7 (1 # 100)) /\
   (estimated_cost (TokenUsage_new 0) <=
     estimated_cost (add_usage (TokenUsage_new 0) 5 7 (1 # 100)))%Q /\
   model (add_usage (TokenUsage_new 0) 5 7 (1 # 100)) =
     model (TokenUsage_new 0) /\
   provider (add_usage (TokenUsage_new 0) 5 7 (1 # 100)) =
     provider (TokenUsage_new 0) /\
   timestamp (add_usage (TokenUsage_new 0) 5 7 (1 # 100)) =
     timestamp (TokenUsage_new 0)).
Proof.
  assert (Hc : (0 <= 1 # 100)%Q) by (unfold Qle; simpl; lia).
  split; [split; [lia|split; [lia|exact Hc]]|].
  destruct (add_usage_monotone (TokenUsage_new 0) 5 7 (1 # 100) ltac:(lia)
              ltac:(lia) Hc) as [H1 [H2 [H3 [H4 [H5 [H6 _]]]]]].
  repeat split; assumption.
Defined.


(** ** C7: agent timeout scenario (spec-modelled orchestrator) *)

Definition plain_chunk (c : Chunk) : Prop :=
  match c with CContent _ | CToolCalls => True | _ => False end.

Definition relayed_before (ms : Z) (b : Timed) : Prop :=
  at_ms b <= ms /\ plain_chunk (chunk b).

Lemma agent_cut_fallback (cfg : TimeoutConfig) (t : Z) :
  enable_timeout_fallback cfg = true ->
  agent_cut cfg t =
  {| ar_chunks := [] ++ [mkTimed t 0 (CError agent_timeout_msg);
                         mkTimed t 0 (CDone Degraded)];
     ar_fatal := false; ar_end := t |}.
Proof. intros H. unfold agent_cut. rewrite H. reflexivity. Qed.

(** With an agent deadline of 10 s and the fallback enabled, an agent
    whose backend does not complete within 10 s relays plain chunks and
    then ends with the time-limit [error] and a degraded [done], by 10 s. *)
Lemma agent_respond_times_out (cfg : TimeoutConfig) (used : Z)
  (bs : list Timed) (fin : BackendEnd) :
  agent_timeout_seconds cfg = 10 -> enable_timeout_fallback cfg = true ->
  never_completes_within 10000 bs fin ->
  let r := agent_respond cfg used bs fin in
  ar_fatal r = false /\
  exists xs t,
    ar_chunks r = xs ++ [mkTimed t 0 (CError agent_timeout_msg);
                         mkTimed t 0 (CDone Degraded)] /\
    ar_end r = t /\ t <= 10000 /\ Forall (relayed_before 10000) xs.
Proof.
  intros Ha Hfb.
  revert used; induction bs as [|b bs IH]; intros used [Hbs Hfin]; cbv zeta.
  - destruct fin as [t|]; simpl agent_respond; rewrite Ha; change (10 * 1000) with 10000.
    + rewrite (proj2 (Z.ltb_lt _ _) Hfin).
      rewrite agent_cut_fallback by exact Hfb.
      split; [reflexivity|]. exists [], 10000.
      repeat split; [lia|constructor].
    + rewrite agent_cut_fallback by exact Hfb.
      split; [reflexivity|]. exists [], 10000.
      repeat split; [lia|constructor].
  - inversion Hbs as [|b' bs' Hb Hbs' [Hb1 Hb2]]; subst b' bs'.
    simpl agent_respond. rewrite Ha. change (10 * 1000) with 10000.
    destruct (_ <? at_ms b) eqn:Hlt.
    + rewrite agent_cut_fallback by exact Hfb.
      split; [reflexivity|]. exists [], 10000.
      repeat split; [lia|constructor].
    + apply Z.ltb_ge in Hlt.
      assert (Hpl : plain_chunk (chunk b)).
      { specialize (Hb ltac:(lia)).
        unfold plain_chunk. destruct (chunk b); auto. }
      assert (Hrest : forall r, ar_fatal r = false /\
                (exists xs t, ar_chunks r = xs ++
                   [mkTimed t 0 (CError agent_timeout_msg);
                    mkTimed t 0 (CDone Degraded)] /\
                 ar_end r = t /\ t <= 10000 /\
                 Forall (relayed_before 10000) xs) ->
                ar_fatal (cons_chunk b r) = false /\
                (exists xs t, ar_chunks (cons_chunk b r) = xs ++
                   [mkTimed t 0 (CError agent_timeout_msg);
                    mkTimed t 0 (CDone Degraded)] /\
                 ar_end (cons_chunk b r) = t /\ t <= 10000 /\
                 Forall (relayed_before 10000) xs)).
      { intros r [Hf [xs [t [Hc [He [Ht Hx]]]]]].
        split; [exact Hf|]. exists (b :: xs), t. simpl.
        rewrite Hc. repeat split; auto.
        constructor; [split; [lia|exact Hpl]|exact Hx]. }
      unfold plain_chunk in Hpl.
      destruct (chunk b) as [text| |m|s]; try contradiction;
        apply Hrest;
        (destruct (_ <? used + tokens b);
         [rewrite agent_cut_fallback by exact Hfb;
          split; [reflexivity|]; exists [], (at_ms b);
          repeat split; [lia|constructor]
         |apply (IH (used + tokens b)); split; assumption]).
Qed.

Lemma merge2_nil_r (l : list (Z * Item)) : merge2 l [] = l.
Proof. destruct l; reflexivity. Qed.

Lemma timeout_msgs_contain :
  contains agent_timeout_msg (py "time limit exceeded") = true /\
  contains orchestrator_timeout_msg (py "time limit exceeded") = true.
Proof. split; vm_compute; reflexivity. Qed.

(** With the fallback enabled, the orchestrator's own cut-off ends the run
    with an [error] noting the time limit and a degraded [done]; chunks
    relayed before it keep this ending. *)
Lemma orchestrator_cut_timeout (cfg : TimeoutConfig) :
  enable_timeout_fallback cfg = true ->
  out_fatal (orchestrator_cut cfg) = false /\
  exists pre msg, out_chunks (orchestrator_cut cfg) =
                    pre ++ [CError msg; CDone Degraded] /\
                  contains msg (py "time limit exceeded") = true.
Proof.
  intros Hfb. unfold orchestrator_cut. rewrite Hfb.
  split; [reflexivity|]. exists [], orchestrator_timeout_msg.
  split; [reflexivity|apply timeout_msgs_contain].
Qed.

Lemma emit_timeout (c : Chunk) (r : RunOutput) :
  (out_fatal r = false /\
   exists pre msg, out_chunks r = pre ++ [CError msg; CDone Degraded] /\
                   contains msg (py "time limit exceeded") = true) ->
  out_fatal (emit c r) = false /\
  exists pre msg, out_chunks (emit c r) = pre ++ [CError msg; CDone Degraded] /\
                  contains msg (py "time limit exceeded") = true.
Proof.
  intros [Hf [pre [msg [Hc Hm]]]]. split; [exact Hf|].
  exists (c :: pre), msg. simpl. rewrite Hc. auto.
Qed.

(** With the fallback enabled, whatever the orchestrator's deadline and
    token budget, the merge loop relays the plain chunks of such an agent
    and ends with an [error] noting the time limit and a degraded [done]. *)
Lemma orchestrate_items_agent_timeout (cfg : TimeoutConfig) (used : Z)
  (xs : list Timed) (t : Z) :
  enable_timeout_fallback cfg = true ->
  Forall (relayed_before 10000) xs ->
  let r := orchestrate_items cfg used false
             (map (fun b => (at_ms b, IChunk (chunk b) (tokens b))) xs ++
              [(t, IChunk (CError agent_timeout_msg) 0);
               (t, IChunk (CDone Degraded) 0); (t, IEnd)]) in
  out_fatal r = false /\
  exists pre msg, out_chunks r = pre ++ [CError msg; CDone Degraded] /\
                  contains msg (py "time limit exceeded") = true.
Proof.
  intros Hfb Hxs. revert used.
  induction Hxs as [|x xs [_ Hpl] Hxs IH]; intros used; cbv zeta.
  - simpl.
    destruct (_ <? t) eqn:E; [apply orchestrator_cut_timeout, Hfb|].
    destruct (_ <? used + 0) eqn:Et;
      [apply emit_timeout, orchestrator_cut_timeout, Hfb|].
    simpl; try rewrite E.
    destruct (_ <? used + 0 + 0);
      [apply emit_timeout, orchestrator_cut_timeout, Hfb|].
    simpl; try rewrite E; simpl.
    split; [reflexivity|]. exists [], agent_timeout_msg.
    split; [reflexivity|apply timeout_msgs_contain].
  - simpl.
    destruct (_ <? at_ms x) eqn:E; [apply orchestrator_cut_timeout, Hfb|].
    unfold plain_chunk in Hpl.
    destruct (chunk x) as [text| |m|s]; try contradiction;
      apply emit_timeout;
      (destruct (_ <? used + tokens x);
       [apply orchestrator_cut_timeout, Hfb|apply IH]).
Qed.

(** C7 (spec-modelled): for every configuration with
    [agent_timeout_seconds = 10] and the timeout fallback enabled, whatever
    its [agent_max_tokens] (1000 included) and its orchestrator deadline
    and token budget, a run over a single agent whose backend does not
    complete within 10 s emits, at its end, an [error] chunk whose message
    contains "time limit exceeded" followed by a [done] chunk with the
    degraded status, and does not fail hard. *)
Theorem agent_timeout_scenario (cfg : TimeoutConfig) (bs : list Timed)
  (fin : BackendEnd)
  (Ha : agent_timeout_seconds cfg = 10)
  (Hfb : enable_timeout_fallback cfg = true)
  (Hslow : never_completes_within 10000 bs fin) :
  out_fatal (orchestrate cfg [(bs, fin)]) = false /\
  exists pre msg,
    out_chunks (orchestrate cfg [(bs, fin)])
      = pre ++ [CError msg; CDone Degraded] /\
    contains msg (py "time limit exceeded") = true.
Proof.
  unfold orchestrate, merge_all. cbn [map fold_right]. rewrite merge2_nil_r.
  destruct (agent_respond_times_out cfg 0 bs fin Ha Hfb Hslow)
    as [Hf [xs [t [Hc [He [Ht Hx]]]]]].
  unfold items_of. rewrite Hc, He, Hf, map_app, <- app_assoc.
  exact (orchestrate_items_agent_timeout cfg 0 xs t Hfb Hx).
Qed.

Lemma agent_timeout_scenario_witness :
  agent_timeout_seconds test_agent_timeout_config = 10 /\
  agent_max_tokens test_agent_timeout_config = 1000 /\
  enable_timeout_fallback test_agent_timeout_config = true /\
  never_completes_within 10000
    [mkTimed 500 5 (CContent (py "The history of AI"))] Hangs /\
  out_fatal (orchestrate test_agent_timeout_config
    [([mkTimed 500 5 (CContent (py "The history of AI"))], Hangs)]) = false.
Proof.
  assert (Ha : agent_timeout_seconds test_agent_timeout_config = 10)
    by reflexivity.
  assert (Hfb : enable_timeout_fallback test_agent_timeout_config = true)
    by reflexivity.
  assert (Hslow : never_completes_within 10000
                    [mkTimed 500 5 (CContent (py "The history of AI"))] Hangs).
  { split; [|exact I]. constructor; [|constructor].
    unfold no_completion_chunk_by. simpl. intros _. exact I. }
  split; [exact Ha|split; [reflexivity|split; [exact Hfb|split; [exact Hslow|]]]].
  exact (proj1 (agent_timeout_scenario _ _ _ Ha Hfb Hslow)).
Defined.

(** * Further properties of the module *)

(** ** Tool lists *)

Lemma fold_left_append {A B : Type} (F : list B -> A -> list B)
  (g : A -> list B) :
  (forall acc t, F acc t = acc ++ g t) ->
  forall l acc, fold_left F l acc = acc ++ flat_map g l.
Proof.
  intros HF l; induction l as [|t l IH]; intros acc; simpl.
  - rewrite app_nil_r. reflexivity.
  - rewrite IH, HF, app_assoc. reflexivity.
Qed.

Lemma format_tools_for_response_api_flat (tools : list PyVal) :
  format_tools_for_response_api tools = flat_map format_response_tool tools.
Proof.
  unfold format_tools_for_response_api. rewrite fold_left_append with
    (g := format_response_tool); [reflexivity|].
  intros acc [| | | | |d]; simpl; try (rewrite app_nil_r; reflexivity).
  destruct (is_str (dict_get d (py "type")) (py "function")); [reflexivity|].
  destruct (dict_is_single d (py "type") (py "web_search_preview"));
    [reflexivity|].
  destruct (dict_is_single d (py "type") (py "code_interpreter"));
    reflexivity.
Qed.

Lemma dict_is_single_eq (d : list (pystr * PyVal)) (k v : pystr) :
  dict_is_single d k v = true -> d = [(k, VStr v)].
Proof.
  unfold dict_is_single.
  destruct d as [|[k' [| | | v' | |]] [|? ?]]; try discriminate.
  rewrite andb_true_iff, !pystr_eqb_eq. intros [-> ->]. reflexivity.
Qed.

Lemma format_response_tool_idem (t : PyVal) :
  flat_map format_response_tool (format_response_tool t) = format_response_tool t.
Proof.
  destruct t as [| | | | |d]; try reflexivity.
  destruct (is_str (dict_get d (py "type")) (py "function")) eqn:Ef.
  - assert (H : format_response_tool (VDict d) = [VDict d])
      by (simpl; rewrite Ef; reflexivity).
    rewrite H. cbn [flat_map]. rewrite H. reflexivity.
  - destruct (dict_is_single d (py "type") (py "web_search_preview")) eqn:Ew.
    { assert (H : format_response_tool (VDict d) = [web_search_tool])
        by (simpl; rewrite Ef, Ew; reflexivity).
      rewrite H. vm_compute. reflexivity. }
    destruct (dict_is_single d (py "type") (py "code_interpreter")) eqn:Ec.
    { assert (H : format_response_tool (VDict d) = [code_interpreter_auto])
        by (simpl; rewrite Ef, Ew, Ec; reflexivity).
      rewrite H. vm_compute. reflexivity. }
    assert (H : format_response_tool (VDict d) = [VDict d])
      by (simpl; rewrite Ef, Ew, Ec; reflexivity).
    rewrite H. cbn [flat_map]. rewrite H. reflexivity.
Qed.

(** X1: [ChatCompletionsBackend.format_tools_for_api] returns its argument:
    every tool, a dict or not, in order. *)
Theorem format_tools_for_api_identity (tools : list PyVal) :
  format_tools_for_api tools = tools.
Proof.
  unfold format_tools_for_api. rewrite fold_left_append with (g := fun t => [t]).
  - simpl. induction tools as [|t tools IH]; [reflexivity|].
    simpl. rewrite IH. reflexivity.
  - intros acc [| | | | |d]; reflexivity.
Qed.

(** X2: [_format_tools_for_response_api] keeps exactly the dict tools, in
    order; each is passed unchanged except a bare
    [{"type": "code_interpreter"}], which gains [container = {"type": "auto"}].
    Non-dict tools are dropped. *)
Theorem format_tools_for_response_api_shape (tools : list PyVal) :
  format_tools_for_response_api tools =
  map (fun t => match t with
                | VDict d =>
                    if dict_is_single d (py "type") (py "code_interpreter")
                    then code_interpreter_auto else t
                | _ => t
                end)
      (filter is_dict tools).
Proof.
  rewrite format_tools_for_response_api_flat.
  induction tools as [|t tools IH]; [reflexivity|].
  simpl. rewrite IH.
  destruct t as [| | | | |d]; try reflexivity. simpl.
  destruct (dict_is_single d (py "type") (py "code_interpreter")) eqn:Ec.
  - apply dict_is_single_eq in Ec. subst d. reflexivity.
  - destruct (is_str (dict_get d (py "type")) (py "function")); [reflexivity|].
    destruct (dict_is_single d (py "type") (py "web_search_preview")) eqn:Ew;
      [|reflexivity].
    apply dict_is_single_eq in Ew. subst d. reflexivity.
Qed.

(** X3: formatting for the Response API twice gives the same list as once. *)
Theorem format_tools_for_response_api_idempotent (tools : list PyVal) :
  format_tools_for_response_api (format_tools_for_response_api tools) =
  format_tools_for_response_api tools.
Proof.
  rewrite !format_tools_for_response_api_flat.
  induction tools as [|t tools IH]; [reflexivity|].
  simpl. rewrite flat_map_app, IH, format_response_tool_idem. reflexivity.
Qed.

(** ** String methods and the request *)

Lemma is_prefix_app_iff (p s : pystr) :
  is_prefix p s = true <-> exists t, s = p ++ t.
Proof.
  revert s; induction p as [|x p IH]; intros [|y s]; simpl.
  - split; eauto.
  - split; eauto.
  - split; [discriminate|intros [t Ht]; discriminate].
  - rewrite andb_true_iff, N.eqb_eq, IH. split.
    + intros [-> [t ->]]. eauto.
    + intros [t Ht]. injection Ht as -> ->. eauto.
Qed.

Lemma is_prefix_app (p t : pystr) : is_prefix p (p ++ t) = true.
Proof. apply is_prefix_app_iff. eauto. Qed.

Lemma contains_unfold (t s : pystr) :
  contains t s =
  is_prefix s t || match t with [] => false | _ :: t' => contains t' s end.
Proof. destruct t; reflexivity. Qed.

Lemma contains_app_l (p t : pystr) : contains (p ++ t) p = true.
Proof. rewrite contains_unfold, is_prefix_app. reflexivity. Qed.

Lemma contains_cons_false (c : pychar) (b s : pystr) :
  contains (c :: b) s = false -> contains b s = false.
Proof. simpl. rewrite orb_false_iff. tauto. Qed.

(** An occurrence of [x :: rest] cannot start inside [b] and end in the
    [x :: rest] appended to it when [x] does not occur in [rest] and [b]
    does not contain [x :: rest]. *)
Lemma no_occurrence_at_start (b rest : pystr) (x : pychar) :
  b <> [] -> contains b (x :: rest) = false -> ~ In x rest ->
  is_prefix (x :: rest) (b ++ x :: rest) = false.
Proof.
  intros Hb Hc Hx.
  destruct (is_prefix (x :: rest) (b ++ x :: rest)) eqn:E; [|reflexivity].
  exfalso. apply is_prefix_app_iff in E as [t Ht].
  apply app_eq_app in Ht as [l [[Hb' Ht]|[Hold Ht]]].
  - subst b. rewrite contains_app_l in Hc. discriminate.
  - destruct b as [|c b']; [contradiction|].
    destruct l as [|y l'].
    + rewrite app_nil_r in Hold. rewrite <- Hold in Hc.
      rewrite <- (app_nil_r (x :: rest)) in Hc at 1.
      rewrite contains_app_l in Hc. discriminate.
    + simpl in Hold, Ht. injection Hold as -> Hrest.
      injection Ht as -> _. apply Hx. rewrite Hrest.
      apply in_or_app. right. left. reflexivity.
Qed.

Lemma remove_all_suffix (x : pychar) (rest b : pystr) (fuel : nat) :
  ~ In x rest -> contains b (x :: rest) = false ->
  (List.length (b ++ x :: rest) <= fuel)%nat ->
  remove_all_fuel fuel (x :: rest) (b ++ x :: rest) = b.
Proof.
  intros Hx. revert fuel; induction b as [|c b IH]; intros fuel Hc Hf.
  - destruct fuel as [|fuel]; [simpl in Hf; lia|].
    cbn [app remove_all_fuel].
    assert (Hp : is_prefix (x :: rest) (x :: rest) = true)
      by (apply is_prefix_app_iff; exists []; rewrite app_nil_r; reflexivity).
    rewrite Hp, skipn_all. destruct fuel; reflexivity.
  - destruct fuel as [|fuel]; [simpl in Hf; lia|].
    cbn [app remove_all_fuel].
    pose proof (no_occurrence_at_start (c :: b) rest x ltac:(discriminate) Hc Hx)
      as Hn.
    cbn [app] in Hn. rewrite Hn.
    f_equal. apply IH; [eapply contains_cons_false; exact Hc|simpl in Hf; lia].
Qed.

Lemma replace_by_empty_suffix (x : pychar) (rest b : pystr) :
  ~ In x rest -> contains b (x :: rest) = false ->
  replace_by_empty (b ++ x :: rest) (x :: rest) = b.
Proof.
  intros Hx Hc. unfold replace_by_empty. apply remove_all_suffix; auto.
Qed.

Lemma endswith_app (b s : pystr) : endswith (b ++ s) s = true.
Proof. unfold endswith. rewrite rev_app_distr. apply is_prefix_app. Qed.

Ltac endswith_other :=
  unfold endswith; rewrite rev_app_distr; reflexivity.

Lemma base_model_of_suffix (b sfx eff : pystr) :
  In (sfx, eff) effort_suffixes -> contains b sfx = false ->
  base_model_of (b ++ sfx) = b.
Proof.
  intros Hin Hc.
  simpl in Hin; destruct Hin as [Hs|[Hs|[Hs|[]]]]; injection Hs as <- <-;
    unfold base_model_of.
  - rewrite endswith_app. apply replace_by_empty_suffix; [simpl; intuition discriminate|exact Hc].
  - assert (H1 : endswith (b ++ py "-medium") (py "-low") = false) by endswith_other.
    rewrite H1, endswith_app.
    apply replace_by_empty_suffix; [simpl; intuition discriminate|exact Hc].
  - assert (H1 : endswith (b ++ py "-high") (py "-low") = false) by endswith_other.
    assert (H2 : endswith (b ++ py "-high") (py "-medium") = false) by endswith_other.
    rewrite H1, H2, endswith_app.
    apply replace_by_empty_suffix; [simpl; intuition discriminate|exact Hc].
Qed.

Lemma replace_effort_suffix (b sfx eff : pystr) :
  In (sfx, eff) effort_suffixes -> contains b sfx = false ->
  replace_by_empty (b ++ sfx) sfx = b.
Proof.
  intros Hin Hc.
  simpl in Hin; destruct Hin as [Hs|[Hs|[Hs|[]]]]; injection Hs as <- <-;
    (apply replace_by_empty_suffix; [simpl; intuition discriminate|exact Hc]).
Qed.

Lemma o_series_model_suffix (b sfx eff : pystr) :
  In (sfx, eff) effort_suffixes -> contains b sfx = false ->
  o_series_model (b ++ sfx) = (b, eff).
Proof.
  intros Hin Hc. pose proof (replace_effort_suffix b sfx eff Hin Hc) as Hr.
  simpl in Hin; destruct Hin as [Hs|[Hs|[Hs|[]]]]; injection Hs as <- <-;
    unfold o_series_model.
  - rewrite endswith_app, Hr. reflexivity.
  - assert (H1 : endswith (b ++ py "-medium") (py "-low") = false) by endswith_other.
    rewrite H1, endswith_app, Hr. reflexivity.
  - assert (H1 : endswith (b ++ py "-high") (py "-low") = false) by endswith_other.
    assert (H2 : endswith (b ++ py "-high") (py "-medium") = false) by endswith_other.
    rewrite H1, H2, endswith_app, Hr. reflexivity.
Qed.

Lemma base_model_of_plain (m : pystr) :
  no_effort_suffix m = true -> base_model_of m = m.
Proof.
  unfold no_effort_suffix, base_model_of. simpl.
  destruct (endswith m (py "-low")), (endswith m (py "-medium")),
    (endswith m (py "-high")); simpl; congruence.
Qed.

Lemma o_series_model_plain (m : pystr) :
  no_effort_suffix m = true -> o_series_model m = (m, py "low").
Proof.
  unfold no_effort_suffix, o_series_model. simpl.
  destruct (endswith m (py "-low")), (endswith m (py "-medium")),
    (endswith m (py "-high")); simpl; congruence.
Qed.

Lemma endswith_split (m s : pystr) :
  endswith m s = true -> exists b, m = b ++ s.
Proof.
  unfold endswith. intros H. apply is_prefix_app_iff in H as [t Ht].
  exists (rev t). rewrite <- (rev_involutive m), Ht, rev_app_distr,
    rev_involutive. reflexivity.
Qed.

Lemma o_series_model_endswith (m sfx eff : pystr) :
  In (sfx, eff) effort_suffixes -> endswith m sfx = true ->
  o_series_model m = (replace_by_empty m sfx, eff).
Proof.
  intros Hin He. destruct (endswith_split m sfx He) as [b ->].
  simpl in Hin; destruct Hin as [Hs|[Hs|[Hs|[]]]]; injection Hs as <- <-;
    unfold o_series_model.
  - rewrite endswith_app. reflexivity.
  - assert (H1 : endswith (b ++ py "-medium") (py "-low") = false) by endswith_other.
    rewrite H1, endswith_app. reflexivity.
  - assert (H1 : endswith (b ++ py "-high") (py "-low") = false) by endswith_other.
    assert (H2 : endswith (b ++ py "-high") (py "-medium") = false) by endswith_other.
    rewrite H1, H2, endswith_app. reflexivity.
Qed.

Lemma startswith_app (b s p : pystr) :
  startswith b p = true -> startswith (b ++ s) p = true.
Proof.
  unfold startswith. rewrite !is_prefix_app_iff. intros [t ->].
  exists (t ++ s). rewrite app_assoc. reflexivity.
Qed.

(** X4: for a model whose name does not start with ["o"], the request names
    the model unchanged, carries no reasoning effort, passes the configured
    [temperature] and [max_tokens] (as [max_output_tokens]) on unchanged,
    and asks for a stream. *)
Theorem build_params_plain_model (m : pystr) (sc : SamplingConfig)
  (messages : list Message) (tools : option (list PyVal)) (p : Params) :
  startswith m (py "o") = false ->
  build_params m sc messages tools = inr p ->
  p_model p = m /\ p_reasoning p = None /\ p_stream p = true /\
  p_temperature p = cfg_temperature sc /\
  p_max_output_tokens p = cfg_max_tokens sc.
Proof.
  intros Ho. unfold build_params. rewrite Ho.
  destruct (split_messages messages [] []) as [e|[instr input]]; [discriminate|].
  intros H. injection H as <-. simpl.
  destruct (cfg_temperature sc); repeat split; reflexivity.
Qed.

(** X5: for a model whose name starts with ["o"], the request never carries
    a temperature and always carries a reasoning effort. A name ending in
    [-low], [-medium] or [-high] is sent with that suffix removed by
    [replace] and with the matching effort; when the suffix does not occur
    earlier in the name, the model sent is the name without it. A name
    with none of these suffixes is sent unchanged with the default effort
    ["low"]. *)
Theorem build_params_o_series (m : pystr) (sc : SamplingConfig)
  (messages : list Message) (tools : option (list PyVal)) (p : Params) :
  startswith m (py "o") = true ->
  build_params m sc messages tools = inr p ->
  p_temperature p = None /\
  p_max_output_tokens p = cfg_max_tokens sc /\
  (exists eff, p_reasoning p = Some eff) /\
  (forall sfx eff, In (sfx, eff) effort_suffixes -> endswith m sfx = true ->
     p_model p = replace_by_empty m sfx /\ p_reasoning p = Some eff) /\
  (forall b sfx eff, m = b ++ sfx -> In (sfx, eff) effort_suffixes ->
     contains b sfx = false -> p_model p = b /\ p_reasoning p = Some eff) /\
  (no_effort_suffix m = true ->
     p_model p = m /\ p_reasoning p = Some (py "low")).
Proof.
  intros Ho. unfold build_params. rewrite Ho.
  destruct (split_messages messages [] []) as [e|[instr input]]; [discriminate|].
  destruct (o_series_model m) as [mdl effort] eqn:Eo.
  intros H. injection H as <-. simpl.
  split; [destruct (cfg_temperature sc); reflexivity|].
  split; [reflexivity|split; [eauto|split; [|split]]].
  - intros sfx eff Hin He.
    rewrite (o_series_model_endswith m sfx eff Hin He) in Eo.
    injection Eo as <- <-. auto.
  - intros b sfx eff -> Hin Hc.
    rewrite (o_series_model_suffix b sfx eff Hin Hc) in Eo.
    injection Eo as <- <-. auto.
  - intros Hn. rewrite (o_series_model_plain m Hn) in Eo.
    injection Eo as <- <-. auto.
Qed.

Lemma split_messages_error (messages : list Message) (instr : pystr)
  (acc : list Message) :
  (exists m, In m messages /\ is_system m = true /\ content_of m = None) ->
  split_messages messages instr acc = inl (KeyError (py "content")).
Proof.
  revert instr acc; induction messages as [|m rest IH]; intros instr acc Hex.
  - destruct Hex as [m [[] _]].
  - destruct Hex as [m' [[->|Hin] [Hs Hc]]].
    + unfold is_system in Hs. simpl.
      destruct (role m') as [r|]; [|discriminate]. rewrite Hs, Hc. reflexivity.
    + assert (IH' : forall i a, split_messages rest i a = inl (KeyError (py "content")))
        by (intros; apply IH; eauto).
      simpl. destruct (role m) as [r|]; [|apply IH'].
      destruct (pystr_eqb r (py "system")); [|apply IH'].
      destruct (content_of m); [apply IH'|reflexivity].
Qed.

Lemma split_messages_ok (messages : list Message) (instr : pystr)
  (acc : list Message) :
  (forall m, In m messages -> is_system m = true -> content_of m <> None) ->
  split_messages messages instr acc =
  inr (last_system_content messages instr,
       acc ++ filter (fun m => negb (is_system m)) messages).
Proof.
  revert instr acc; induction messages as [|m rest IH]; intros instr acc Hall.
  - simpl. rewrite app_nil_r. reflexivity.
  - assert (Hall' : forall m, In m rest -> is_system m = true -> content_of m <> None)
      by (intros; apply Hall; simpl; auto).
    specialize (Hall m (or_introl eq_refl)).
    simpl. unfold is_system in *.
    destruct (role m) as [r|].
    + destruct (pystr_eqb r (py "system")).
      * destruct (content_of m) as [c|]; [|exfalso; apply Hall; reflexivity].
        simpl. apply IH, Hall'.
      * simpl. rewrite IH by exact Hall'. rewrite <- app_assoc. reflexivity.
    + simpl. rewrite IH by exact Hall'. rewrite <- app_assoc. reflexivity.
Qed.

Lemma last_system_content_app (l1 l2 : list Message) (instr : pystr) :
  last_system_content (l1 ++ l2) instr =
  last_system_content l2 (last_system_content l1 instr).
Proof. revert instr; induction l1; intros; simpl; auto. Qed.

Lemma last_system_content_none (l : list Message) (instr : pystr) :
  Forall (fun m => is_system m = false) l -> last_system_content l instr = instr.
Proof.
  revert instr; induction 1; intros; simpl; auto. rewrite H. auto.
Qed.

(** X6: when some system message has no ["content"] key, the request cannot
    be built: [message["content"]] raises [KeyError('content')]. *)
Theorem build_params_system_without_content (m : pystr) (sc : SamplingConfig)
  (messages : list Message) (tools : option (list PyVal)) :
  (exists msg, In msg messages /\ is_system msg = true /\ content_of msg = None) ->
  build_params m sc messages tools = inl (KeyError (py "content")).
Proof.
  intros Hex. unfold build_params. rewrite split_messages_error by exact Hex.
  reflexivity.
Qed.

(** X7: when every system message has a content, the request's [input] is
    the list of the non-system messages, in their order, and its
    [instructions] is the content of the last system message, present only
    when that content is non-empty (absent when there is no system
    message). *)
Theorem build_params_messages (m : pystr) (sc : SamplingConfig)
  (messages : list Message) (tools : option (list PyVal)) :
  (forall msg, In msg messages -> is_system msg = true -> content_of msg <> None) ->
  exists p, build_params m sc messages tools = inr p /\
    p_input p = filter (fun msg => negb (is_system msg)) messages /\
    (Forall (fun msg => is_system msg = false) messages -> p_instructions p = None) /\
    (forall pre msg post c, messages = pre ++ msg :: post ->
       is_system msg = true -> content_of msg = Some c ->
       Forall (fun x => is_system x = false) post ->
       p_instructions p = match c with [] => None | _ => Some c end).
Proof.
  intros Hall. unfold build_params. rewrite split_messages_ok by exact Hall.
  destruct (startswith m (py "o")); [destruct (o_series_model m)|];
  (eexists; split; [reflexivity|]); simpl;
  (split; [reflexivity|split]);
  [intros Hn; rewrite last_system_content_none by exact Hn; reflexivity
  |intros pre msg post c -> Hs Hc Hp;
   rewrite last_system_content_app; simpl; rewrite Hs, Hc;
   rewrite last_system_content_none by exact Hp; reflexivity
  |intros Hn; rewrite last_system_content_none by exact Hn; reflexivity
  |intros pre msg post c -> Hs Hc Hp;
   rewrite last_system_content_app; simpl; rewrite Hs, Hc;
   rewrite last_system_content_none by exact Hp; reflexivity].
Qed.

Lemma format_tools_for_response_api_nil (tools : list PyVal) :
  format_tools_for_response_api tools = [] <-> existsb is_dict tools = false.
Proof.
  rewrite format_tools_for_response_api_flat.
  induction tools as [|t tools IH]; [simpl; tauto|].
  destruct t as [| | | | |d]; simpl; try exact IH.
  split; [|discriminate].
  destruct (is_str (dict_get d (py "type")) (py "function"));
    [discriminate|].
  destruct (dict_is_single d (py "type") (py "web_search_preview"));
    [discriminate|].
  destruct (dict_is_single d (py "type") (py "code_interpreter")); discriminate.
Qed.

(** X8: the request has a [tools] key exactly when the given tool list holds
    at least one dict, and then its value is
    [_format_tools_for_response_api(tools)]. *)
Theorem build_params_tools (m : pystr) (sc : SamplingConfig)
  (messages : list Message) (tools : option (list PyVal)) (p : Params) :
  build_params m sc messages tools = inr p ->
  p_tools p = match tools with
              | Some ts => if existsb is_dict ts
                           then Some (format_tools_for_response_api ts)
                           else None
              | None => None
              end.
Proof.
  unfold build_params.
  destruct (split_messages messages [] []) as [e|[instr input]]; [discriminate|].
  destruct (startswith m (py "o")); [destruct (o_series_model m)|];
  intros H; injection H as <-; simpl;
  (destruct tools as [[|t ts]|]; [reflexivity| |reflexivity]);
  destruct (existsb is_dict (t :: ts)) eqn:Ed;
  destruct (format_tools_for_response_api (t :: ts)) eqn:Ef;
  try reflexivity;
  try (apply format_tools_for_response_api_nil in Ef; congruence);
  (assert (Hne : format_tools_for_response_api (t :: ts) <> [])
     by (rewrite Ef; discriminate);
   exfalso; apply Hne, format_tools_for_response_api_nil, Ed).
Qed.

(** ** Cost *)

Lemma pricing_nonneg (m : pystr) (r : Q * Q) :
  lookup_rates m pricing = Some r -> (0 <= fst r)%Q /\ (0 <= snd r)%Q.
Proof.
  unfold pricing. simpl.
  repeat match goal with
  | |- context [if ?c then _ else _] => destruct c
  end;
  intros H; try discriminate; injection H as <-; split;
  unfold Qle; simpl; lia.
Qed.

Lemma tokens_cost_nonneg (i o : Z) (r : Q * Q) :
  0 <= i -> 0 <= o -> (0 <= fst r)%Q -> (0 <= snd r)%Q ->
  (0 <= tokens_cost i o r)%Q.
Proof.
  intros Hi Ho Hr1 Hr2. unfold tokens_cost.
  assert (Hi' : (0 <= inject_Z i / 1000)%Q).
  { apply Qle_shift_div_l; [reflexivity|].
    rewrite Qmult_0_l. unfold Qle; simpl; lia. }
  assert (Ho' : (0 <= inject_Z o / 1000)%Q).
  { apply Qle_shift_div_l; [reflexivity|].
    rewrite Qmult_0_l. unfold Qle; simpl; lia. }
  rewrite <- (Qplus_0_l 0).
  apply Qplus_le_compat; apply Qmult_le_0_compat; assumption.
Qed.

(** X9: [calculate_cost] of non-negative token counts is non-negative, when
    the fallback rate variables that are set parse to non-negative
    numbers. *)
Theorem calculate_cost_nonneg (env : Env) (i o : Z) (m : pystr) (c : Q) :
  0 <= i -> 0 <= o ->
  rate_nonneg env.(FALLBACK_INPUT_RATE) -> rate_nonneg env.(FALLBACK_OUTPUT_RATE) ->
  calculate_cost env i o m = inr c -> (0 <= c)%Q.
Proof.
  intros Hi Ho Hri Hro. unfold calculate_cost.
  destruct (lookup_rates (base_model_of m) pricing) as [r|] eqn:Hl.
  - intros H. injection H as <-. destruct (pricing_nonneg _ _ Hl).
    apply tokens_cost_nonneg; assumption.
  - destruct (FALLBACK_INPUT_RATE env) as [|qi|ti] eqn:Ei; simpl; try discriminate;
    destruct (FALLBACK_OUTPUT_RATE env) as [|qo|to] eqn:Eo; simpl; try discriminate;
    intros H; injection H as <-; apply tokens_cost_nonneg; auto;
    simpl; unfold rate_nonneg in *; try (unfold Qle; simpl; lia); assumption.
Qed.

(** X11: a model name [b] followed by one of the reasoning-effort suffixes
    [-low], [-medium], [-high] (not occurring in [b]) is priced as [b],
    when [b] itself ends in none of them. *)
Theorem calculate_cost_effort_suffix (env : Env) (i o : Z) (b sfx eff : pystr) :
  In (sfx, eff) effort_suffixes -> contains b sfx = false ->
  no_effort_suffix b = true ->
  calculate_cost env i o (b ++ sfx) = calculate_cost env i o b.
Proof.
  intros Hin Hc Hn. unfold calculate_cost.
  rewrite (base_model_of_suffix b sfx eff Hin Hc), (base_model_of_plain b Hn).
  reflexivity.
Qed.

(** X12: with neither fallback variable set, a model missing from the
    pricing table is priced at the rates of [gpt-4o]. *)
Theorem calculate_cost_fallback_default (env : Env) (i o : Z) (m : pystr) :
  lookup_rates (base_model_of m) pricing = None ->
  env.(FALLBACK_INPUT_RATE) = EnvUnset -> env.(FALLBACK_OUTPUT_RATE) = EnvUnset ->
  calculate_cost env i o m = calculate_cost env i o (py "gpt-4o").
Proof.
  intros Hl Hi Ho. unfold calculate_cost.
  replace (lookup_rates (base_model_of (py "gpt-4o")) pricing)
    with (Some (25 # 10000, 1 # 100)) by (vm_compute; reflexivity).
  rewrite Hl, Hi, Ho. reflexivity.
Qed.

(** X13: for token counts of at most [10^308] in absolute value (so that
    [tokens / 1000] cannot overflow a float), [calculate_cost] raises only
    for a model missing from the pricing table whose fallback rate variable
    is set to a text [float] does not accept, and what it raises is then a
    [ValueError]. *)
Theorem calculate_cost_raises (env : Env) (i o : Z) (m : pystr) (e : exn) :
  Z.abs i <= 10 ^ 308 -> Z.abs o <= 10 ^ 308 ->
  calculate_cost env i o m = inl e ->
  lookup_rates (base_model_of m) pricing = None /\
  (exists t, env.(FALLBACK_INPUT_RATE) = EnvNotAFloat t \/
             env.(FALLBACK_OUTPUT_RATE) = EnvNotAFloat t) /\
  exists msg, e = ValueError msg.
Proof.
  intros _ _. unfold calculate_cost.
  destruct (lookup_rates (base_model_of m) pricing); [discriminate|].
  intros H. split; [reflexivity|]. revert H.
  destruct (FALLBACK_INPUT_RATE env) as [|qi|ti] eqn:Ei; simpl.
  3: intros H; injection H as <-; eauto.
  all: destruct (FALLBACK_OUTPUT_RATE env) as [|qo|to] eqn:Eo; simpl;
    intros H; try discriminate; injection H as <-; eauto.
Qed.

(** ** Provider detection *)

Lemma lower_char_idem (c : pychar) : lower (lower_char c) = lower_char c.
Proof.
  unfold lower_char.
  destruct ((65 <=? c)%N && (c <=? 90)%N) eqn:Eu.
  - apply andb_true_iff in Eu as [E1 E2].
    apply N.leb_le in E1. apply N.leb_le in E2.
    unfold lower; cbn [flat_map]. unfold lower_char.
    replace ((c + 32 <=? 90)%N) with false by (symmetry; apply N.leb_gt; lia).
    replace ((c + 32 =? 304)%N) with false by (symmetry; apply N.eqb_neq; lia).
    replace ((c + 32 =? 8490)%N) with false by (symmetry; apply N.eqb_neq; lia).
    rewrite andb_false_r. reflexivity.
  - destruct (c =? 304)%N eqn:Ei; [reflexivity|].
    destruct (c =? 8490)%N eqn:Ek; [reflexivity|].
    unfold lower; cbn [flat_map]. unfold lower_char.
    rewrite Eu, Ei, Ek. reflexivity.
Qed.

Lemma lower_idem (s : pystr) : lower (lower s) = lower s.
Proof.
  unfold lower. induction s as [|c s IH]; [reflexivity|].
  cbn [flat_map]. rewrite flat_map_app, IH.
  change (flat_map lower_char (lower_char c)) with (lower (lower_char c)).
  rewrite lower_char_idem. reflexivity.
Qed.

(** X14: [get_provider_from_model] ignores letter case: a model name and its
    [lower()] are routed to the same provider. *)
Theorem get_provider_from_model_lower (m : pystr) :
  get_provider_from_model (lower m) = get_provider_from_model m.
Proof. unfold get_provider_from_model. rewrite lower_idem. reflexivity. Qed.

(** X15: feeding the detected provider back to [create_backend] builds an
    OpenAI backend for the model unless its lower-cased name contains
    ["claude"] or ["gemini"], or contains ["grok"] and none of ["gpt"],
    ["o1"], ["o3"]; in those cases it raises
    [ValueError("Unsupported provider: ...")] with the detected provider. *)
Theorem create_backend_detected_provider (m : pystr) (api_key : option pystr)
  (env : Env) (openai_installed : bool) (now : Q) :
  create_backend (get_provider_from_model m) m api_key env openai_installed now =
  let ml := lower m in
  if contains ml (py "claude") || contains ml (py "gemini")
     || (contains ml (py "grok")
         && negb (contains ml (py "gpt") || contains ml (py "o1")
                  || contains ml (py "o3")))
  then inl (ValueError (py "Unsupported provider: " ++ get_provider_from_model m))
  else OpenAIResponseBackend_new {| cfg_model := Some m; cfg_api_key := api_key |}
         env openai_installed now.
Proof.
  unfold create_backend, get_provider_from_model. cbn [existsb].
  rewrite !orb_false_r.
  destruct (contains (lower m) (py "claude")), (contains (lower m) (py "gemini")),
    (contains (lower m) (py "gpt")), (contains (lower m) (py "o1")),
    (contains (lower m) (py "o3")), (contains (lower m) (py "grok"));
    reflexivity.
Qed.

(** ** Status and stream *)

Lemma stream_with_tools_config (env : Env) (self : OpenAIResponseBackend)
  (messages : list Message) (resp : create_outcome) :
  config (snd (stream_with_tools env self messages resp)) = config self /\
  backend_model (snd (stream_with_tools env self messages resp)) =
    backend_model self.
Proof.
  unfold stream_with_tools.
  destruct (try_body env self messages resp) as [[body exc] u]. auto.
Qed.

(** X16: after [reset_token_usage()], one [stream_with_tools] call leaves
    [get_status()] reporting the provider ["openai"], the backend's config,
    and token totals and cost that are the sums of one [add_usage] call per
    [done] chunk of the stream, with [total_tokens] their input plus output
    sums. *)
Theorem reset_then_stream_status (env : Env) (self : OpenAIResponseBackend)
  (now : Q) (messages : list Message) (resp : create_outcome) :
  let '(out, self') :=
    stream_with_tools env (reset_token_usage self now) messages resp in
  exists calls,
    List.length calls = count_done out /\
    st_input_tokens (get_status self') = sum_inputs calls /\
    st_output_tokens (get_status self') = sum_outputs calls /\
    st_total_tokens (get_status self') = sum_inputs calls + sum_outputs calls /\
    (st_estimated_cost (get_status self') == sum_costs calls)%Q /\
    st_provider (get_status self') = py "openai" /\
    st_config (get_status self') = config self.
Proof.
  pose proof (try_body_chunks env (reset_token_usage self now) messages resp) as H.
  pose proof (stream_with_tools_out env (reset_token_usage self now) messages resp)
    as Hs.
  pose proof (stream_with_tools_config env (reset_token_usage self now) messages resp)
    as [Hc _].
  destruct (try_body env (reset_token_usage self now) messages resp)
    as [[body exc] u].
  destruct H as [_ [[calls [Hu Hl]] _]]. destruct Hs as [Hout Hu'].
  destruct (stream_with_tools env (reset_token_usage self now) messages resp)
    as [out self'].
  simpl in Hout, Hu', Hc. subst out.
  destruct (replay_totals (TokenUsage_new now) calls) as [Hi [Ho Hq]].
  exists calls. unfold get_status, get_total_tokens.
  cbn [st_input_tokens st_output_tokens st_total_tokens st_estimated_cost
       st_provider st_config].
  change (token_usage (reset_token_usage self now)) with (TokenUsage_new now) in Hu.
  rewrite Hu', Hu, Hi, Ho, Hq, Hc. simpl.
  split; [|split; [reflexivity|split; [reflexivity|split; [reflexivity|
    split; [rewrite Qplus_0_l; reflexivity|split; reflexivity]]]]].
  rewrite count_done_app, Hl.
  destruct exc as [e|]; [|change (count_done []) with 0%nat; lia].
  replace (count_done [error_chunk e]) with 0%nat; [lia|].
  unfold count_done. cbn [filter]. rewrite (proj1 (error_chunk_props e)).
  reflexivity.
Qed.

Lemma step_chunks (env : Env) (m : pystr) (st st1 : LoopState) (ev : Event)
  (out : list StreamChunk) :
  step env m st ev = inr (out, st1) -> out = event_chunks ev.
Proof.
  unfold step, event_chunks.
  destruct (ev_type ev) as [ty|]; [|intros H; injection H as <- _; reflexivity].
  destruct (pystr_eqb ty (py "response.output_text.delta")).
  { destruct (ev_delta ev) as [[|x d]|]; intros H; injection H as <- _; reflexivity. }
  destruct (pystr_eqb ty (py "response.function_call_output.delta")).
  { intros H; injection H as <- _; reflexivity. }
  destruct (pystr_eqb ty (py "response.completed")).
  - destruct (ev_usage ev) as [[mi mo]|]; cbv zeta beta iota;
      match goal with |- context [calculate_cost ?a ?b ?c ?d] =>
        destruct (calculate_cost a b c d) end;
      intros H; try discriminate; injection H as <- _; reflexivity.
  - intros H; injection H as <- _; reflexivity.
Qed.

Lemma async_for_no_exc_chunks (env : Env) (m : pystr) (evs : list Event)
  (fin : stream_end) (st st' : LoopState) (out : list StreamChunk) :
  async_for env m evs fin st = (out, None, st') -> out = flat_map event_chunks evs.
Proof.
  revert st out; induction evs as [|ev evs IH]; intros st out; simpl.
  - destruct fin; intros H; injection H; intros; subst; reflexivity || discriminate.
  - destruct (step env m st ev) as [e|[o st1]] eqn:Hs; [intros H; discriminate|].
    destruct (async_for env m evs fin st1) as [[r exc] s] eqn:Hr.
    intros H. injection H as <- -> ->.
    rewrite (step_chunks env m st st1 ev o Hs), (IH st1 r Hr). reflexivity.
Qed.

(** X17: when [stream_with_tools] yields no [error] chunk, its chunks are, in
    the order of the provider's events, one [content] chunk per
    [response.output_text.delta] event with a non-empty [delta] (carrying
    it), one [tool_calls] chunk per [response.function_call_output.delta]
    event (carrying its [delta]), and one [done] chunk per
    [response.completed] event; no other event yields anything. *)
Theorem stream_chunks_follow_events (env : Env) (self : OpenAIResponseBackend)
  (messages : list Message) (evs : list Event) (fin : stream_end) :
  Forall (fun c => is_error_chunk c = false)
    (fst (stream_with_tools env self messages (CreateReturns evs fin))) ->
  fst (stream_with_tools env self messages (CreateReturns evs fin)) =
  flat_map event_chunks evs.
Proof.
  unfold stream_with_tools, try_body.
  destruct (split_messages messages [] []) as [e|sm].
  { simpl. intros H. inversion H as [|c l Hc]. rewrite (proj2 (error_chunk_props e)) in Hc.
    discriminate. }
  destruct (async_for env (backend_model self) evs fin (init_loop_state self))
    as [[out exc] st] eqn:Ha.
  destruct exc as [e|]; simpl.
  - intros H. apply Forall_app in H as [_ H]. inversion H as [|c l Hc].
    rewrite (proj2 (error_chunk_props e)) in Hc. discriminate.
  - intros _. rewrite app_nil_r. eapply async_for_no_exc_chunks; exact Ha.
Qed.

Lemma step_unhandled (env : Env) (m : pystr) (st : LoopState) (ev : Event) :
  handled_event ev = false -> step env m st ev = inr ([], st).
Proof.
  unfold handled_event, step.
  destruct (ev_type ev) as [ty|]; [|reflexivity].
  intros H. apply orb_false_iff in H as [H12 H3].
  apply orb_false_iff in H12 as [H1 H2]. rewrite H1, H2, H3. reflexivity.
Qed.

Lemma async_for_filter (env : Env) (m : pystr) (evs : list Event)
  (fin : stream_end) (st : LoopState) :
  async_for env m evs fin st = async_for env m (filter handled_event evs) fin st.
Proof.
  revert st; induction evs as [|ev evs IH]; intros st; [reflexivity|].
  simpl. destruct (handled_event ev) eqn:Eh.
  - simpl. destruct (step env m st ev) as [e|[o st1]]; [reflexivity|].
    rewrite IH. reflexivity.
  - rewrite (step_unhandled env m st ev Eh), IH.
    destruct (async_for env m (filter handled_event evs) fin st) as [[r e] s].
    reflexivity.
Qed.

(** X18: provider events of a type the loop does not handle (or with no
    [type]) have no effect: removing them from the response changes neither
    the chunks [stream_with_tools] yields nor the backend it leaves. *)
Theorem stream_ignores_unhandled_events (env : Env) (self : OpenAIResponseBackend)
  (messages : list Message) (evs : list Event) (fin : stream_end) :
  stream_with_tools env self messages (CreateReturns evs fin) =
  stream_with_tools env self messages (CreateReturns (filter handled_event evs) fin).
Proof.
  unfold stream_with_tools, try_body.
  rewrite (async_for_filter env (backend_model self) evs fin). reflexivity.
Qed.

Lemma event_chunks_source (ev : Event) :
  Forall (fun c => source c = Some (py "openai")) (event_chunks ev).
Proof.
  unfold event_chunks.
  destruct (ev_type ev) as [ty|]; [|constructor].
  destruct (pystr_eqb ty (py "response.output_text.delta")).
  { destruct (ev_delta ev) as [[|x d]|]; repeat constructor. }
  destruct (pystr_eqb ty (py "response.function_call_output.delta"));
    [repeat constructor|].
  destruct (pystr_eqb ty (py "response.completed")); repeat constructor.
Qed.

Lemma async_for_source (env : Env) (m : pystr) (evs : list Event)
  (fin : stream_end) (st : LoopState) :
  let '(out, _, _) := async_for env m evs fin st in
  Forall (fun c => source c = Some (py "openai")) out.
Proof.
  revert st; induction evs as [|ev evs IH]; intros st; simpl.
  - destruct fin; constructor.
  - destruct (step env m st ev) as [e|[o st1]] eqn:Hs; [constructor|].
    specialize (IH st1).
    destruct (async_for env m evs fin st1) as [[r exc] s].
    apply Forall_app. split; [|exact IH].
    rewrite (step_chunks env m st st1 ev o Hs). apply event_chunks_source.
Qed.

(** X19: every chunk [stream_with_tools] yields, [error] chunks included,
    has [source] ["openai"]. *)
Theorem stream_chunks_source_openai (env : Env) (self : OpenAIResponseBackend)
  (messages : list Message) (resp : create_outcome) :
  Forall (fun c => source c = Some (py "openai"))
    (fst (stream_with_tools env self messages resp)).
Proof.
  unfold stream_with_tools, try_body.
  destruct (split_messages messages [] []) as [e|sm]; [repeat constructor|].
  destruct resp as [e|evs fin]; [repeat constructor|].
  pose proof (async_for_source env (backend_model self) evs fin
                (init_loop_state self)) as H.
  destruct (async_for env (backend_model self) evs fin (init_loop_state self))
    as [[out exc] st].
  simpl. apply Forall_app. split; [exact H|].
  destruct exc; repeat constructor.
Qed.

(** X20: estimating the tokens of two texts separately and adding the
    estimates undercounts the estimate of their concatenation by at most
    one token, and never overcounts it. *)
Theorem estimate_tokens_app {A : Type} (a b : list A) :
  estimate_tokens a + estimate_tokens b <= estimate_tokens (a ++ b) <=
  estimate_tokens a + estimate_tokens b + 1.
Proof.
  unfold estimate_tokens. rewrite length_app, Nat2Z.inj_add.
  generalize (Z.of_nat (List.length a)), (Z.of_nat (List.length b)).
  intros x y.
  pose proof (Z.div_mod x 4 ltac:(lia)). pose proof (Z.mod_pos_bound x 4 ltac:(lia)).
  pose proof (Z.div_mod y 4 ltac:(lia)). pose proof (Z.mod_pos_bound y 4 ltac:(lia)).
  pose proof (Z.div_mod (x + y) 4 ltac:(lia)).
  pose proof (Z.mod_pos_bound (x + y) 4 ltac:(lia)).
  lia.
Qed.

(** ** Instances of the further properties *)

Lemma build_params_plain_model_witness :
  exists p, build_params (py "gpt-4o") demo_sampling demo_messages None = inr p /\
    p_model p = py "gpt-4o" /\ p_reasoning p = None /\ p_stream p = true /\
    p_temperature p = Some (VInt 1) /\ p_max_output_tokens p = Some (VInt 256).
Proof.
  assert (Ho : startswith (py "gpt-4o") (py "o") = false) by reflexivity.
  destruct (build_params (py "gpt-4o") demo_sampling demo_messages None)
    as [e|p] eqn:E; [vm_compute in E; discriminate|].
  exists p. split; [reflexivity|].
  exact (build_params_plain_model (py "gpt-4o") demo_sampling demo_messages None p
           Ho E).
Defined.

Lemma build_params_o_series_witness :
  (exists p, build_params (py "o3-mini-high") demo_sampling demo_messages None = inr p /\
     p_temperature p = None /\ p_model p = py "o3-mini" /\
     p_reasoning p = Some (py "high")) /\
  (exists p, build_params (py "o3-mini") demo_sampling demo_messages None = inr p /\
     p_model p = py "o3-mini" /\ p_reasoning p = Some (py "low")).
Proof.
  split.
  - assert (Ho : startswith (py "o3-mini-high") (py "o") = true) by reflexivity.
    assert (Hm : py "o3-mini-high" = py "o3-mini" ++ py "-high") by reflexivity.
    assert (Hin : In (py "-high", py "high") effort_suffixes)
      by (right; right; left; reflexivity).
    assert (Hc : contains (py "o3-mini") (py "-high") = false) by reflexivity.
    destruct (build_params (py "o3-mini-high") demo_sampling demo_messages None)
      as [e|p] eqn:E; [vm_compute in E; discriminate|].
    destruct (build_params_o_series (py "o3-mini-high") demo_sampling
                demo_messages None p Ho E) as [Ht [_ [_ [_ [Hs _]]]]].
    exists p. split; [reflexivity|split; [exact Ht|]].
    exact (Hs (py "o3-mini") (py "-high") (py "high") Hm Hin Hc).
  - assert (Ho : startswith (py "o3-mini") (py "o") = true) by reflexivity.
    assert (Hn : no_effort_suffix (py "o3-mini") = true) by reflexivity.
    destruct (build_params (py "o3-mini") demo_sampling demo_messages None)
      as [e|p] eqn:E; [vm_compute in E; discriminate|].
    destruct (build_params_o_series (py "o3-mini") demo_sampling
                demo_messages None p Ho E) as [_ [_ [_ [_ [_ Hp]]]]].
    exists p. split; [reflexivity|exact (Hp Hn)].
Defined.

Lemma build_params_system_without_content_witness :
  build_params (py "gpt-4o") demo_sampling
    [mkMessage (Some (py "system")) None; demo_msg "user" "hi"] None =
  inl (KeyError (py "content")).
Proof.
  apply build_params_system_without_content.
  exists (mkMessage (Some (py "system")) None).
  split; [left; reflexivity|split; reflexivity].
Defined.

Lemma build_params_messages_witness :
  exists p, build_params (py "gpt-4o") demo_sampling demo_messages None = inr p /\
    p_instructions p = Some (py "be kind") /\
    p_input p = [demo_msg "user" "hi"; demo_msg "assistant" "ok"].
Proof.
  assert (Hall : forall msg, In msg demo_messages -> is_system msg = true ->
                   content_of msg <> None).
  { intros msg Hin Hs. simpl in Hin.
    destruct Hin as [<-|[<-|[<-|[<-|[]]]]]; discriminate. }
  destruct (build_params_messages (py "gpt-4o") demo_sampling demo_messages None Hall)
    as [p [Hb [Hi [_ Hl]]]].
  assert (Hd : demo_messages =
    [demo_msg "system" "be brief"; demo_msg "user" "hi"] ++
    demo_msg "system" "be kind" :: [demo_msg "assistant" "ok"]) by reflexivity.
  assert (Hs : is_system (demo_msg "system" "be kind") = true) by reflexivity.
  assert (Hc : content_of (demo_msg "system" "be kind") = Some (py "be kind"))
    by reflexivity.
  assert (Hp : Forall (fun x => is_system x = false) [demo_msg "assistant" "ok"])
    by (repeat constructor).
  exists p. split; [exact Hb|split].
  - exact (Hl _ _ _ _ Hd Hs Hc Hp).
  - rewrite Hi. reflexivity.
Defined.

Lemma build_params_tools_witness :
  exists p, build_params (py "gpt-4o") demo_sampling demo_messages
              (Some [VInt 3; code_interpreter_tool]) = inr p /\
    p_tools p = Some [code_interpreter_auto].
Proof.
  destruct (build_params (py "gpt-4o") demo_sampling demo_messages
              (Some [VInt 3; code_interpreter_tool])) as [e|p] eqn:E;
    [vm_compute in E; discriminate|].
  exists p. split; [reflexivity|].
  rewrite (build_params_tools _ _ _ _ p E). vm_compute. reflexivity.
Defined.

Lemma calculate_cost_nonneg_witness :
  exists c, calculate_cost demo_env 1000 500 (py "gpt-4o") = inr c /\ (0 <= c)%Q.
Proof.
  assert (Hi : 0 <= 1000) by lia. assert (Ho : 0 <= 500) by lia.
  assert (Hri : rate_nonneg (FALLBACK_INPUT_RATE demo_env)) by exact I.
  assert (Hro : rate_nonneg (FALLBACK_OUTPUT_RATE demo_env)) by exact I.
  destruct (calculate_cost demo_env 1000 500 (py "gpt-4o")) as [e|c] eqn:E;
    [vm_compute in E; discriminate|].
  exists c. split; [reflexivity|].
  exact (calculate_cost_nonneg demo_env 1000 500 (py "gpt-4o") c Hi Ho Hri Hro E).
Defined.

Lemma calculate_cost_effort_suffix_witness :
  calculate_cost demo_env 1000 1000 (py "o3-mini" ++ py "-high") =
  calculate_cost demo_env 1000 1000 (py "o3-mini").
Proof.
  assert (Hin : In (py "-high", py "high") effort_suffixes)
    by (right; right; left; reflexivity).
  assert (Hc : contains (py "o3-mini") (py "-high") = false) by reflexivity.
  assert (Hn : no_effort_suffix (py "o3-mini") = true) by reflexivity.
  exact (calculate_cost_effort_suffix demo_env 1000 1000 (py "o3-mini") (py "-high")
           (py "high") Hin Hc Hn).
Defined.

Lemma calculate_cost_fallback_default_witness :
  calculate_cost demo_env 2000 1000 (py "llama-3-70b") =
  calculate_cost demo_env 2000 1000 (py "gpt-4o").
Proof.
  assert (Hl : lookup_rates (base_model_of (py "llama-3-70b")) pricing = None)
    by (vm_compute; reflexivity).
  assert (Hi : FALLBACK_INPUT_RATE demo_env = EnvUnset) by reflexivity.
  assert (Ho : FALLBACK_OUTPUT_RATE demo_env = EnvUnset) by reflexivity.
  exact (calculate_cost_fallback_default demo_env 2000 1000 (py "llama-3-70b") Hl Hi Ho).
Defined.

Lemma calculate_cost_raises_witness :
  exists e, calculate_cost demo_bad_env 10 10 (py "llama-3") = inl e /\
    lookup_rates (base_model_of (py "llama-3")) pricing = None /\
    (exists t, FALLBACK_INPUT_RATE demo_bad_env = EnvNotAFloat t \/
               FALLBACK_OUTPUT_RATE demo_bad_env = EnvNotAFloat t) /\
    exists msg, e = ValueError msg.
Proof.
  assert (Hi : Z.abs 10 <= 10 ^ 308) by (vm_compute; discriminate).
  destruct (calculate_cost demo_bad_env 10 10 (py "llama-3")) as [e|c] eqn:E;
    [|vm_compute in E; discriminate].
  exists e. split; [reflexivity|].
  exact (calculate_cost_raises demo_bad_env 10 10 (py "llama-3") e Hi Hi E).
Defined.

Lemma stream_chunks_follow_events_witness :
  fst (stream_with_tools demo_env demo_backend demo_messages
         (CreateReturns demo_events Stops)) =
  [content_chunk (py "Hi"); tool_calls_chunk (Some (py "{}")); done_chunk].
Proof.
  assert (H : Forall (fun c => is_error_chunk c = false)
                (fst (stream_with_tools demo_env demo_backend demo_messages
                        (CreateReturns demo_events Stops))))
    by (vm_compute; repeat constructor).
  rewrite (stream_chunks_follow_events demo_env demo_backend demo_messages
             demo_events Stops H).
  vm_compute. reflexivity.
Defined.
